(** * Parramatta property listings: a model of [scraper.py]

    The script fetches a JSON document from a listing API, locates the list
    of listings in it, normalises every listing, geocodes and measures it,
    labels it with pros and cons and writes one block per listing to a PDF.

    The model follows the script function by function.  Python values read
    from JSON are the type [json]; exceptions are explicit ([res]); floats
    are IEEE doubles; the network and the C math library are inputs
    ([world], [platform]); the PDF is the sequence of drawing calls made on
    the [FPDF] object.  The interpreter is CPython 3.11 and the PDF library
    fpdf 1.7.2, which keeps the text of a page as a [str] and encodes it to
    Latin-1 when [output] closes the document.  What [debug_print] writes to
    the standard output is left out. *)

From Stdlib Require Import ZArith List Bool Ascii String Lia.
From Stdlib Require Import PrimFloat SpecFloat FloatOps FloatAxioms.
Import ListNotations.

Local Open Scope string_scope.
Local Open Scope Z_scope.
Set Warnings "-register-all,-inexact-float".

(** ** Python runtime *)

Module Py.

(** Exceptions the script can meet.  [SystemExit] is not an [Exception]:
    an [except Exception] clause lets it through. *)
Inductive exn : Type :=
| ValueError
| UnicodeEncodeError
| TypeError
| KeyError
| IndexError
| OverflowError
| OSError
| RequestException
| SystemExit (msg : string).

Definition is_Exception (e : exn) : bool :=
  match e with
  | SystemExit _ => false
  | _ => true
  end.

Inductive res (A : Type) : Type :=
| Ok (a : A)
| Raise (e : exn).
Arguments Ok {A} a.
Arguments Raise {A} e.

Definition bind {A B : Type} (m : res A) (k : A -> res B) : res B :=
  match m with
  | Ok a => k a
  | Raise e => Raise e
  end.

(** [try: body / except Exception: handler], where the handler cannot fail. *)
Definition try_except {A : Type} (body : res A) (handler : exn -> A) : res A :=
  match body with
  | Ok a => Ok a
  | Raise e => if is_Exception e then Ok (handler e) else Raise e
  end.

(** A value decoded by [json.loads].  A dict keeps its entries in insertion
    order; a key is looked up by the first entry that carries it.  A [str] is
    held as the bytes of its UTF-8 encoding (see [decode] below).  The
    integers that [json.loads] reads have at most 4300 digits. *)
Inductive json : Type :=
| JNull
| JBool (b : bool)
| JInt (z : Z)
| JFloat (f : float)
| JStr (s : string)
| JList (l : list json)
| JDict (d : list (string * json)).

Fixpoint dict_get (d : list (string * json)) (k : string) : option json :=
  match d with
  | [] => None
  | (k', v) :: d' => if String.eqb k' k then Some v else dict_get d' k
  end.

(** Truth value of an object: [None], [False], zero, and empty strings,
    lists and dicts are false.  A NaN is true. *)
Definition truthy (v : json) : bool :=
  match v with
  | JNull => false
  | JBool b => b
  | JInt z => negb (z =? 0)
  | JFloat f => negb (PrimFloat.eqb f PrimFloat.zero)
  | JStr s => negb (String.eqb s EmptyString)
  | JList l => match l with [] => false | _ => true end
  | JDict d => match d with [] => false | _ => true end
  end.

(** Truth value of an [int] or [None]. *)
Definition truthy_int (o : option Z) : bool :=
  match o with
  | Some z => negb (z =? 0)
  | None => false
  end.

Definition is_none (v : json) : bool :=
  match v with JNull => true | _ => false end.

(** *** Text

    A [str] is a sequence of code points, held as the bytes of its UTF-8
    encoding (a lone surrogate, which [json.loads] can produce, as its three
    bytes); [decode] gives the code points.  A byte that starts no well-formed
    sequence is read as U+FFFD: such bytes are the encoding of no [str]. *)

Definition continuation (b : N) : bool := ((128 <=? b) && (b <? 192))%N.

Fixpoint decode (s : string) : list N :=
  match s with
  | EmptyString => []
  | String a0 s1 =>
      let b0 := N_of_ascii a0 in
      if (b0 <? 128)%N then b0 :: decode s1
      else
        match s1 with
        | EmptyString => [0xFFFD%N]
        | String a1 s2 =>
            let b1 := N_of_ascii a1 in
            if ((194 <=? b0) && (b0 <? 224))%N && continuation b1
            then ((b0 - 192) * 64 + (b1 - 128))%N :: decode s2
            else
              match s2 with
              | EmptyString => 0xFFFD%N :: decode s1
              | String a2 s3 =>
                  let b2 := N_of_ascii a2 in
                  let c3 := ((b0 - 224) * 4096 + (b1 - 128) * 64 + (b2 - 128))%N in
                  if ((224 <=? b0) && (b0 <? 240))%N && continuation b1
                     && continuation b2 && (2048 <=? c3)%N
                  then c3 :: decode s3
                  else
                    match s3 with
                    | EmptyString => 0xFFFD%N :: decode s1
                    | String a3 s4 =>
                        let b3 := N_of_ascii a3 in
                        let c4 := ((b0 - 240) * 262144 + (b1 - 128) * 4096
                                   + (b2 - 128) * 64 + (b3 - 128))%N in
                        if ((240 <=? b0) && (b0 <? 245))%N && continuation b1
                           && continuation b2 && continuation b3
                           && ((65536 <=? c4) && (c4 <? 1114112))%N
                        then c4 :: decode s4
                        else 0xFFFD%N :: decode s1
                    end
              end
        end
  end.

(** The continuation bytes at the head of [s]: with a first byte before
    them, the first character of a [str]. *)
Fixpoint continuations (s : string) : string :=
  match s with
  | String a s' =>
      if continuation (N_of_ascii a) then String a (continuations s') else EmptyString
  | EmptyString => EmptyString
  end.

(** *** Characters

    The tables are those of Unicode 14.0, the database of CPython 3.11. *)

(** The decimal digits (category Nd) come in runs of ten, zero to nine; the
    zero of each run. *)
Definition digit_zeros : list N :=
  [0x30; 0x660; 0x6F0; 0x7C0; 0x966; 0x9E6; 0xA66; 0xAE6; 0xB66; 0xBE6;
   0xC66; 0xCE6; 0xD66; 0xDE6; 0xE50; 0xED0; 0xF20; 0x1040; 0x1090; 0x17E0;
   0x1810; 0x1946; 0x19D0; 0x1A80; 0x1A90; 0x1B50; 0x1BB0; 0x1C40; 0x1C50;
   0xA620; 0xA8D0; 0xA900; 0xA9D0; 0xA9F0; 0xAA50; 0xABF0; 0xFF10; 0x104A0;
   0x10D30; 0x11066; 0x110F0; 0x11136; 0x111D0; 0x112F0; 0x11450; 0x114D0;
   0x11650; 0x116C0; 0x11730; 0x118E0; 0x11950; 0x11C50; 0x11D50; 0x11DA0;
   0x16A60; 0x16AC0; 0x16B50; 0x1D7CE; 0x1D7D8; 0x1D7E2; 0x1D7EC; 0x1D7F6;
   0x1E140; 0x1E2F0; 0x1E950; 0x1FBF0]%N.

(** [Py_UNICODE_TODECIMAL]: the value of a decimal digit. *)
Definition decimal_of (c : N) : option N :=
  match find (fun z => (z <=? c) && (c <=? z + 9))%N digit_zeros with
  | Some z => Some (c - z)%N
  | None => None
  end.

(** [Py_UNICODE_ISDECIMAL]: what [\d] matches in a [str] pattern, and the
    digits that [int()] reads. *)
Definition is_digit (c : N) : bool :=
  match decimal_of c with Some _ => true | None => false end.

Definition digit_val (c : N) : Z :=
  match decimal_of c with Some d => Z.of_N d | None => 0 end.

Definition ascii_digit (c : N) : bool := ((48 <=? c) && (c <=? 57))%N.

(** [Py_ISSPACE]: tab, line feed, vertical tab, form feed, carriage return
    and space. *)
Definition is_space (c : N) : bool := (((9 <=? c) && (c <=? 13)) || (c =? 32))%N.

(** [Py_UNICODE_ISSPACE] *)
Definition unicode_spaces : list N :=
  [0x9; 0xA; 0xB; 0xC; 0xD; 0x1C; 0x1D; 0x1E; 0x1F; 0x20; 0x85; 0xA0; 0x1680;
   0x2000; 0x2001; 0x2002; 0x2003; 0x2004; 0x2005; 0x2006; 0x2007; 0x2008;
   0x2009; 0x200A; 0x2028; 0x2029; 0x202F; 0x205F; 0x3000]%N.

Definition is_unicode_space (c : N) : bool := existsb (N.eqb c) unicode_spaces.

Fixpoint lstrip (s : list N) : list N :=
  match s with
  | c :: s' => if is_space c then lstrip s' else s
  | [] => []
  end.

Definition strip (s : list N) : list N := rev (lstrip (rev (lstrip s))).

(** *** [int(x)] *)

(** [_PyUnicode_TransformDecimalAndSpaceToASCII]: a [str] that is all ASCII
    is taken as it is; in any other, a character below 127 is kept, white
    space becomes a space, a decimal digit its ASCII digit, and anything else
    a question mark, at which the text is cut. *)
Fixpoint transform (cs : list N) : list N :=
  match cs with
  | [] => []
  | c :: rest =>
      if (c <? 127)%N then c :: transform rest
      else if is_unicode_space c then 32%N :: transform rest
      else match decimal_of c with
           | Some d => (48 + d)%N :: transform rest
           | None => [63%N]
           end
  end.

Definition to_ascii (cs : list N) : list N :=
  if forallb (fun c => (c <? 128)%N) cs then cs else transform cs.

(** Digits with single underscores between them, as [int()] accepts them.
    [prev] tells whether the previous character was a digit. *)
Fixpoint int_digits (s : list N) (acc : Z) (prev : bool) : option Z :=
  match s with
  | [] => if prev then Some acc else None
  | c :: s' =>
      if ascii_digit c then int_digits s' (10 * acc + (Z.of_N c - 48)) true
      else if ((c =? 95)%N && prev)%bool then
        match s' with
        | c' :: _ => if ascii_digit c' then int_digits s' acc false else None
        | [] => None
        end
      else None
  end.

(** [sys.get_int_max_str_digits()], which the script leaves at its default. *)
Definition int_max_str_digits : Z := 4300.

(** The digits after the sign: a text with more digits than the limit is
    refused. *)
Definition unsigned (body : list N) : option Z :=
  if int_max_str_digits <? Z.of_nat (List.length (filter ascii_digit body)) then None
  else int_digits body 0 false.

(** [PyLong_FromString] in base 10, on the transformed text: white space
    around, a sign, digits. *)
Definition int_of_codes (cs : list N) : option Z :=
  match strip (to_ascii cs) with
  | [] => None
  | c :: r =>
      if (c =? 43)%N then unsigned r
      else if (c =? 45)%N then option_map Z.opp (unsigned r)
      else unsigned (c :: r)
  end.

(** [int(s)] for a [str] given by its code points. *)
Definition int_str (cs : list N) : res Z :=
  match int_of_codes cs with Some z => Ok z | None => Raise ValueError end.

Definition int_of_str (s : string) : option Z := int_of_codes (decode s).

(** [int(f)] for a float: truncation towards zero. *)
Definition float_trunc (f : float) : res Z :=
  match Prim2SF f with
  | S754_zero _ => Ok 0
  | S754_finite s m e =>
      let v := match e with
               | Zneg p => Z.shiftr (Zpos m) (Zpos p)
               | _ => Z.shiftl (Zpos m) e
               end in
      Ok (if s then - v else v)
  | S754_infinity _ => Raise OverflowError
  | S754_nan => Raise ValueError
  end.

Definition py_int (v : json) : res Z :=
  match v with
  | JBool b => Ok (if b then 1 else 0)
  | JInt z => Ok z
  | JFloat f => float_trunc f
  | JStr s => int_str (decode s)
  | JNull | JList _ | JDict _ => Raise TypeError
  end.

(** *** Floats *)

(** [float(n)] for an int: nearest double, [OverflowError] beyond the range. *)
Definition float_of_Z (z : Z) : res float :=
  let f := SF2Prim (binary_normalize prec emax z 0 false) in
  if is_infinity f then Raise OverflowError else Ok f.

(** [round(f)]: nearest integer, ties to even. *)
Definition float_round (f : float) : res Z :=
  match Prim2SF f with
  | S754_zero _ => Ok 0
  | S754_finite s m e =>
      let v := match e with
               | Zneg p =>
                   let q := Z.shiftr (Zpos m) (Zpos p) in
                   let r := Zpos m - Z.shiftl q (Zpos p) in
                   let half := Z.shiftl 1 (Zpos p - 1) in
                   if (half <? r) || ((half =? r) && Z.odd q) then q + 1 else q
               | _ => Z.shiftl (Zpos m) e
               end in
      Ok (if s then - v else v)
  | S754_infinity _ => Raise OverflowError
  | S754_nan => Raise ValueError
  end.

(** *** Subscripts *)

(** [v[0]] *)
Definition subscript0 (v : json) : res json :=
  match v with
  | JList (x :: _) => Ok x
  | JList [] => Raise IndexError
  | JStr (String c s') => Ok (JStr (String c (continuations s')))
  | JStr EmptyString => Raise IndexError
  | JDict _ => Raise KeyError
  | JNull | JBool _ | JInt _ | JFloat _ => Raise TypeError
  end.

(** [v[k]] for a string key [k] *)
Definition getitem (v : json) (k : string) : res json :=
  match v with
  | JDict d => match dict_get d k with Some x => Ok x | None => Raise KeyError end
  | _ => Raise TypeError
  end.

(** *** State with exceptions

    A block of statements that assigns to local variables: an exception
    leaves the assignments made before it in place. *)
Definition M (S A : Type) : Type := S -> res A * S.

Definition ret {S A : Type} (a : A) : M S A := fun s => (Ok a, s).

Definition mbind {S A B : Type} (m : M S A) (k : A -> M S B) : M S B :=
  fun s => match m s with
           | (Ok a, s') => k a s'
           | (Raise e, s') => (Raise e, s')
           end.

Definition lift {S A : Type} (r : res A) : M S A := fun s => (r, s).
Definition get {S : Type} : M S S := fun s => (Ok s, s).
Definition modify {S : Type} (f : S -> S) : M S unit := fun s => (Ok tt, f s).

(** [try: body / except Exception: pass] *)
Definition try_pass {S : Type} (body : M S unit) : M S unit :=
  fun s => match body s with
           | (Ok tt, s') => (Ok tt, s')
           | (Raise e, s') => if is_Exception e then (Ok tt, s') else (Raise e, s')
           end.

Definition when {S : Type} (b : bool) (body : M S unit) : M S unit :=
  if b then body else ret tt.

End Py.
Export Py.

Declare Scope py_scope.
Delimit Scope py_scope with py.
Notation "x <- m ;; k" := (mbind m (fun x => k))
  (at level 61, m at next level, right associativity) : py_scope.
Notation "m ;; k" := (mbind m (fun _ => k))
  (at level 61, right associativity) : py_scope.

(** ** The C library and the network *)

(** What the interpreter takes from the platform's libm and float parser:
    [sin], [cos], [asin], [pow], [round(x, 2)] and [float(s)] on a string;
    and [isprintable], the characters that [repr] writes as they are. *)
Record platform : Type := {
  c_sin : float -> float;
  c_cos : float -> float;
  c_asin : float -> float;
  c_pow : float -> float -> float;
  py_round2 : float -> float;
  float_of_str : string -> option float;
  isprintable : N -> bool
}.

Record request : Type := {
  req_url : string;
  req_headers : list (string * string);
  req_params : list (string * json)
}.

(** [body] is [None] when [r.json()] cannot decode the text. *)
Record response : Type := {
  status_code : Z;
  body : option json
}.

(** [http_get] answers the listing request ([None]: [requests.get] raised).
    [geocode n a] is the decoded answer of the [n]-th geocoding lookup, made
    for the address value [a] ([None]: the request or the decoding raised).
    [write_file name] tells whether the file system takes the file. *)
Record world : Type := {
  http_get : request -> option response;
  geocode : nat -> json -> option json;
  write_file : string -> bool
}.

(** Environment variables read at import time. *)
Record config : Type := {
  RAPIDAPI_KEY : option string;
  RAPIDAPI_HOST : option string;
  RAPIDAPI_PATH : string;
  SUBURB : string;
  STATE : string;
  MAX_PRICE : Z;
  MIN_BEDS : Z;
  MAX_BEDS : Z;
  MIN_CARSPACES : Z;
  LIMIT : Z
}.

(** ** scraper.py *)

Definition STATION_COORDS : float * float := ((-33.8178)%float, (151.0035)%float).
Definition PARK_COORDS : float * float := ((-33.8145)%float, (151.0024)%float).

(** *** math *)

(** The wrapper of [math.sin], [math.cos], [math.asin] and [math.sqrt]: a NaN
    out of a number, or an infinity out of a finite number, is a
    [ValueError]. *)
Definition math_1 (f : float -> float) (x : float) : res float :=
  let r := f x in
  if is_nan r && negb (is_nan x) then Raise ValueError
  else if is_infinity r && is_finite x then Raise ValueError
  else Ok r.

Definition degToRad : float := (0x1.921fb54442d18p+1 / 180)%float.

Definition radians (x : float) : float := (x * degToRad)%float.

(** [x ** 2] for a float: NaN, infinities, zero and one are answered
    directly; otherwise the C [pow] is called on the absolute value, and an
    infinite result is an [OverflowError]. *)
Definition float_pow2 (P : platform) (x : float) : res float :=
  if is_nan x then Ok x
  else if is_infinity x then Ok (abs x)
  else if is_zero x then Ok 0%float
  else if (abs x =? 1)%float then Ok 1%float
  else let r := c_pow P (abs x) 2 in
       if is_infinity r then Raise OverflowError else Ok r.

(** *** helpers *)

Definition float_of_bool (b : bool) : float := if b then 1%float else 0%float.

Definition py_float (P : platform) (v : json) : res float :=
  match v with
  | JFloat f => Ok f
  | JInt z => float_of_Z z
  | JBool b => Ok (float_of_bool b)
  | JStr s => match float_of_str P s with Some f => Ok f | None => Raise ValueError end
  | JNull | JList _ | JDict _ => Raise TypeError
  end.

Definition km_to_walk_minutes (km : float) : res Z :=
  float_round (km * 12)%float.

Definition haversine_km (P : platform) (lat1 lon1 lat2 lon2 : float) : res float :=
  let R := 6371.0%float in
  let phi1 := radians lat1 in
  let phi2 := radians lat2 in
  let dphi := radians (lat2 - lat1)%float in
  let dlambda := radians (lon2 - lon1)%float in
  bind (math_1 (c_sin P) (dphi / 2)%float) (fun s1 =>
  bind (float_pow2 P s1) (fun s1_2 =>
  bind (math_1 (c_cos P) phi1) (fun c1 =>
  bind (math_1 (c_cos P) phi2) (fun c2 =>
  bind (math_1 (c_sin P) (dlambda / 2)%float) (fun s2 =>
  bind (float_pow2 P s2) (fun s2_2 =>
  let a := (s1_2 + c1 * c2 * s2_2)%float in
  bind (math_1 PrimFloat.sqrt a) (fun q =>
  bind (math_1 (c_asin P) q) (fun t =>
  Ok (R * 2 * t)%float)))))))).

Definition is_list (v : json) : bool :=
  match v with JList _ => true | _ => false end.

Definition is_dict (v : json) : bool :=
  match v with JDict _ => true | _ => false end.

Definition candidates : list string :=
  ["properties"; "listings"; "results"; "data"; "items"].

(** [for k in candidates: if k in j and isinstance(j[k], list): return j[k]] *)
Fixpoint find_candidate (d : list (string * json)) (ks : list string)
  : option (list json) :=
  match ks with
  | [] => None
  | k :: ks' =>
      match dict_get d k with
      | Some (JList l) => Some l
      | _ => find_candidate d ks'
      end
  end.

(** [for k, v in j.items(): if isinstance(v, list) and len(v) and
    isinstance(v[0], dict): return v] *)
Fixpoint find_list_of_dicts (items : list (string * json)) : option (list json) :=
  match items with
  | [] => None
  | (_, JList (JDict x :: l)) :: _ => Some (JDict x :: l)
  | _ :: items' => find_list_of_dicts items'
  end.

Definition find_listings_container (j : json) : option (list json) :=
  match j with
  | JDict d =>
      match find_candidate d candidates with
      | Some l => Some l
      | None => find_list_of_dicts d
      end
  | JList l => Some l
  | _ => None
  end.

Fixpoint try_get (o : json) (keys : list string) : json :=
  match keys with
  | [] => JNull
  | k :: keys' =>
      match o with
      | JDict d =>
          match dict_get d k with
          | Some v => v
          | None => try_get o keys'
          end
      | _ => try_get o keys'
      end
  end.

(** *** extract_field *)

(** A listing after [extract_field]: the dict with the nine fixed keys.
    [price_raw], [address], [url], [lat] and [lon] hold whatever the
    provider's record held. *)
Record item : Type := {
  price_raw : json;
  price : option Z;
  beds : option Z;
  baths : option Z;
  cars : option Z;
  address : json;
  url : json;
  lat : json;
  lon : json
}.

(** [isinstance(v, (int, float))]; a [bool] is an [int]. *)
Definition is_number (v : json) : bool :=
  match v with
  | JBool _ | JInt _ | JFloat _ => true
  | _ => false
  end.

(** [s.replace(',', '')], on the code points of [s] *)
Fixpoint remove_commas (s : list N) : list N :=
  match s with
  | [] => []
  | c :: s' => if (c =? 44)%N then remove_commas s' else c :: remove_commas s'
  end.

(** [re.findall(r"\d+", s)]: the maximal runs of decimal digits, left to
    right; [cur] is the run being read. *)
Fixpoint findall_digits (cur s : list N) : list (list N) :=
  match s with
  | [] => match cur with [] => [] | _ => [cur] end
  | c :: s' =>
      if is_digit c then findall_digits (cur ++ [c])%list s'
      else match cur with
           | [] => findall_digits [] s'
           | _ => cur :: findall_digits [] s'
           end
  end.

Definition price_value (price : json) : res (option Z) :=
  try_except
    (if is_number price then bind (py_int price) (fun z => Ok (Some z))
     else match price with
          | JStr s =>
              let nums := findall_digits [] (remove_commas (decode s)) in
              match nums with
              | [] => Ok None
              | _ => bind (int_str (List.concat nums)) (fun z => Ok (Some z))
              end
          | _ => Ok None
          end)
    (fun _ => None).

(** [v not in (None, '')] *)
Definition not_none_or_empty (v : json) : bool :=
  match v with
  | JNull => false
  | JStr EmptyString => false
  | _ => true
  end.

(** [try: x = int(x) if x not in (None, '') else None / except Exception: x = None] *)
Definition int_or_none (v : json) : res (option Z) :=
  try_except
    (if not_none_or_empty v then bind (py_int v) (fun z => Ok (Some z)) else Ok None)
    (fun _ => None).

Definition price_keys : list string :=
  ["price"; "price_display"; "price_value"; "price_min"; "asking_price"].
Definition beds_keys : list string := ["bedrooms"; "beds"; "bed"].
Definition baths_keys : list string := ["bathrooms"; "baths"; "bath"].
Definition cars_keys : list string := ["carspaces"; "cars"; "parking"; "car"].
Definition address_keys : list string :=
  ["address"; "full_address"; "displayable_address"; "formatted_address"].
Definition url_keys : list string := ["url"; "ldp_url"; "listing_url"; "detail_url"].
Definition lat_keys : list string := ["lat"; "latitude"].
Definition lon_keys : list string := ["lon"; "lng"; "longitude"].

Definition extract_field (listing : json) : res item :=
  let price := try_get listing price_keys in
  let beds := try_get listing beds_keys in
  let baths := try_get listing baths_keys in
  let cars := try_get listing cars_keys in
  let address := try_get listing address_keys in
  let url := try_get listing url_keys in
  let lat := try_get listing lat_keys in
  let lon := try_get listing lon_keys in
  bind (price_value price) (fun price_val =>
  bind (int_or_none beds) (fun beds =>
  bind (int_or_none baths) (fun baths =>
  bind (int_or_none cars) (fun cars =>
  Ok {| price_raw := price; price := price_val; beds := beds; baths := baths;
        cars := cars; address := address; url := url; lat := lat; lon := lon |})))).

(** *** The loop over the listings *)

(** An entry of [props]. *)
Record prop : Type := {
  raw : item;
  dist_station_km : option float;
  dist_park_km : option float;
  pros : list string;
  cons : list string
}.

(** The local variables of one iteration, with the count of geocoding
    lookups made and of seconds slept so far in the run. *)
Record frame : Type := {
  f_item : item;
  f_dist_station_km : option float;
  f_dist_park_km : option float;
  f_calls : nat;
  f_slept : nat
}.

Definition set_item (g : item -> item) (f : frame) : frame :=
  {| f_item := g (f_item f); f_dist_station_km := f_dist_station_km f;
     f_dist_park_km := f_dist_park_km f; f_calls := f_calls f; f_slept := f_slept f |}.

Definition set_lat (v : json) (i : item) : item :=
  {| price_raw := price_raw i; price := price i; beds := beds i; baths := baths i;
     cars := cars i; address := address i; url := url i; lat := v; lon := lon i |}.

Definition set_lon (v : json) (i : item) : item :=
  {| price_raw := price_raw i; price := price i; beds := beds i; baths := baths i;
     cars := cars i; address := address i; url := url i; lat := lat i; lon := v |}.

Definition set_dist_station_km (d : option float) (f : frame) : frame :=
  {| f_item := f_item f; f_dist_station_km := d;
     f_dist_park_km := f_dist_park_km f; f_calls := f_calls f; f_slept := f_slept f |}.

Definition set_dist_park_km (d : option float) (f : frame) : frame :=
  {| f_item := f_item f; f_dist_station_km := f_dist_station_km f;
     f_dist_park_km := d; f_calls := f_calls f; f_slept := f_slept f |}.

(** [requests.get(geocode_url, ...)] followed by [rgeo.json()] *)
Definition request_geocode (w : world) : M frame json :=
  fun f =>
    let f' := {| f_item := f_item f; f_dist_station_km := f_dist_station_km f;
                 f_dist_park_km := f_dist_park_km f; f_calls := S (f_calls f);
                 f_slept := f_slept f |} in
    match geocode w (f_calls f) (address (f_item f)) with
    | Some geodata => (Ok geodata, f')
    | None => (Raise RequestException, f')
    end.

Definition sleep (n : nat) : M frame unit :=
  modify (fun f =>
    {| f_item := f_item f; f_dist_station_km := f_dist_station_km f;
       f_dist_park_km := f_dist_park_km f; f_calls := f_calls f;
       f_slept := (n + f_slept f)%nat |}).

Local Open Scope py_scope.

(** Lines 153-166: geocode when a coordinate is missing and there is an
    address. *)
Definition geocode_block (P : platform) (w : world) : M frame unit :=
  f <- get ;;
  when (is_none (lat (f_item f)) || is_none (lon (f_item f)))
    (when (truthy (address (f_item f)))
       (try_pass
          (geodata <- request_geocode w ;;
           when (truthy geodata)
             (g <- lift (subscript0 geodata) ;;
              v <- lift (getitem g "lat") ;;
              x <- lift (py_float P v) ;;
              modify (set_item (set_lat (JFloat x))) ;;
              g' <- lift (subscript0 geodata) ;;
              v' <- lift (getitem g' "lon") ;;
              y <- lift (py_float P v') ;;
              modify (set_item (set_lon (JFloat y))) ;;
              sleep 1)))).

(** [round(haversine_km(float(item["lat"]), float(item["lon"]), c[0], c[1]), 2)] *)
Definition rounded_distance (P : platform) (i : item) (c : float * float) : res float :=
  bind (py_float P (lat i)) (fun x =>
  bind (py_float P (lon i)) (fun y =>
  bind (haversine_km P x y (fst c) (snd c)) (fun d =>
  Ok (py_round2 P d)))).

(** Lines 169-176 *)
Definition distance_block (P : platform) : M frame unit :=
  modify (set_dist_station_km None) ;;
  modify (set_dist_park_km None) ;;
  f <- get ;;
  when (truthy (lat (f_item f)) && truthy (lon (f_item f)))
    (try_pass
       (d1 <- lift (rounded_distance P (f_item f) STATION_COORDS) ;;
        modify (set_dist_station_km (Some d1)) ;;
        d2 <- lift (rounded_distance P (f_item f) PARK_COORDS) ;;
        modify (set_dist_park_km (Some d2)))).

Local Close Scope py_scope.

(** Lines 179-194: the pros and cons of a listing. *)
Definition pros_cons (max_price : Z) (i : item) : list string * list string :=
  let pros : list string := [] in
  let cons : list string := [] in
  let '(pros, cons) :=
    if truthy_int (cars i) && match cars i with Some c => c >=? 1 | None => false end
    then ((pros ++ ["Has 1+ car space"])%list, cons)
    else (pros, (cons ++ ["No dedicated parking listed"])%list) in
  let beds_is_2 := match beds i with Some b => b =? 2 | None => false end in
  let '(pros, cons) :=
    if beds_is_2 && truthy_int (baths i)
       && match baths i with Some b => b >=? 2 | None => false end
    then ((pros ++ ["2 beds + 2 baths"])%list, cons)
    else if beds_is_2
            && (negb (truthy_int (baths i))
                || match baths i with Some b => b =? 1 | None => false end)
    then (pros, (cons ++ ["Only 1 bath for 2 beds"])%list)
    else (pros, cons) in
  let '(pros, cons) :=
    if truthy_int (price i)
       && match price i with Some p => p <=? max_price - 50000 | None => false end
    then ((pros ++ ["Good value under budget"])%list, cons)
    else if truthy_int (price i)
            && match price i with Some p => p >=? max_price - 10000 | None => false end
    then (pros, (cons ++ ["Close to top of budget"])%list)
    else (pros, cons) in
  (pros, cons).

(** One iteration of [for L in listings], from the state of the run
    [(calls, slept)]. *)
Definition enrich (P : platform) (w : world) (max_price : Z)
    (io : nat * nat) (L : json) : res (prop * (nat * nat)) :=
  bind (extract_field L) (fun item =>
    let f0 := {| f_item := item; f_dist_station_km := None; f_dist_park_km := None;
                 f_calls := fst io; f_slept := snd io |} in
    match mbind (geocode_block P w) (fun _ => distance_block P) f0 with
    | (Ok _, f) =>
        let '(pros, cons) := pros_cons max_price (f_item f) in
        Ok ({| raw := f_item f; dist_station_km := f_dist_station_km f;
               dist_park_km := f_dist_park_km f; pros := pros; cons := cons |},
            (f_calls f, f_slept f))
    | (Raise e, _) => Raise e
    end).

(** [props = []; for L in listings: ...; props.append({...})] *)
Fixpoint enrich_loop (P : platform) (w : world) (max_price : Z)
    (listings : list json) (io : nat * nat) (props : list prop)
  : res (list prop * (nat * nat)) :=
  match listings with
  | [] => Ok (props, io)
  | L :: rest =>
      bind (enrich P w max_price io L) (fun r =>
        enrich_loop P w max_price rest (snd r) (props ++ [fst r])%list)
  end.

(** *** The PDF *)

(** A piece of the text handed to the PDF: a literal, or a value placed in
    an f-string, standing for [str(v)]. *)
Inductive frag : Type :=
| Lit (s : string)
| Val (v : json).

Definition text : Type := list frag.

(** The calls made on the [FPDF] object. *)
Inductive pdf_cmd : Type :=
| set_auto_page_break (auto : bool) (margin : Z)
| add_page
| set_font (family style : string) (size : Z)
| cell (w h : Z) (txt : text) (align : string)
| multi_cell (w h : Z) (txt : text)
| ln (h : Z)
| line_at_y (x1 x2 : Z)
| output (name : string).

(** [a or b] *)
Definition py_or (a b : json) : json := if truthy a then a else b.

Definition int_or (o : option Z) (b : json) : json :=
  if truthy_int o then match o with Some z => JInt z | None => b end else b.

(** [", ".join(l)] *)
Definition join (l : list string) : string := String.concat ", " l.

Definition opt_line (d : option float) (place : string) : res (list pdf_cmd) :=
  match d with
  | Some km =>
      bind (km_to_walk_minutes km) (fun mins =>
        Ok [multi_cell 0 6 [Lit "Distance: "; Val (JFloat km); Lit place;
                            Val (JInt mins); Lit " min walk)"]])
  | None => Ok []
  end.

(** The title and price line of a block. *)
Definition title_of (i : item) : json :=
  py_or (address i) (py_or (url i) (JStr "Property")).

Definition price_text_of (i : item) : text :=
  if truthy (price_raw i) then [Val (price_raw i)]
  else if truthy_int (price i)
       then [Lit "$"; Val (match price i with Some p => JInt p | None => JNull end)]
       else [Lit "Price unknown"].

(** The body of [for p in props] (lines 213-237): the calls it makes. *)
Definition render_block (p : prop) : res (list pdf_cmd) :=
  let i := raw p in
  let title := title_of i in
  let price_text := price_text_of i in
  let beds := int_or (beds i) (JStr "?") in
  let baths := int_or (baths i) (JStr "?") in
  let cars := int_or (cars i) (JStr "?") in
  let head :=
    [set_font "Arial" "B" 11;
     multi_cell 0 7 ([Val title; Lit " — "] ++ price_text)%list;
     set_font "Arial" EmptyString 10;
     multi_cell 0 6 [Val beds; Lit " bed | "; Val baths; Lit " bath | ";
                     Val cars; Lit " car"]] in
  let link :=
    if truthy (url i) then [multi_cell 0 6 [Lit "Link: "; Val (url i)]] else [] in
  bind (opt_line (dist_station_km p) " km to station (~") (fun l1 =>
  bind (opt_line (dist_park_km p) " km to Parramatta Park (~") (fun l2 =>
  let pr := match pros p with
            | [] => []
            | _ => [multi_cell 0 6 [Lit ("Pros: " ++ join (pros p))]]
            end in
  let cn := match cons p with
            | [] => []
            | _ => [multi_cell 0 6 [Lit ("Cons: " ++ join (cons p))]]
            end in
  Ok (head ++ link ++ l1 ++ l2 ++ pr ++ cn ++ [ln 3; line_at_y 10 200; ln 4])%list)).

(** [for p in props: ...], appending to the calls made so far. *)
Fixpoint render_loop (pdf : list pdf_cmd) (props : list prop) : res (list pdf_cmd) :=
  match props with
  | [] => Ok pdf
  | p :: rest => bind (render_block p) (fun b => render_loop (pdf ++ b)%list rest)
  end.

Definition pdf_header (max_price : Z) : list pdf_cmd :=
  [set_auto_page_break true 15;
   add_page;
   set_font "Arial" EmptyString 12;
   cell 0 8 [Lit "Parramatta Property Listings (Under $"; Val (JInt max_price); Lit ")"] "C";
   ln 6].

(** Whether a text encodes to Latin-1. *)
Definition latin1 (s : string) : bool := forallb (fun c => (c <? 256)%N) (decode s).

(** Whether [repr(s)] does: [repr] writes an escape for a character beyond
    ASCII that is not printable, and keeps a printable one. *)
Definition escaped_latin1 (P : platform) (s : string) : bool :=
  forallb (fun c => (c <? 256)%N || negb (isprintable P c)) (decode s).

(** Whether [repr(v)] does; the numbers, [None], [True] and [False] are
    written in ASCII. *)
Fixpoint repr_latin1 (P : platform) (v : json) : bool :=
  match v with
  | JStr s => escaped_latin1 P s
  | JList l => forallb (repr_latin1 P) l
  | JDict d =>
      forallb (fun kv => match kv with
                         | (k, x) => escaped_latin1 P k && repr_latin1 P x
                         end) d
  | JNull | JBool _ | JInt _ | JFloat _ => true
  end.

(** Whether [str(v)], which an f-string writes for [v], does. *)
Definition str_latin1 (P : platform) (v : json) : bool :=
  match v with
  | JStr s => latin1 s
  | _ => repr_latin1 P v
  end.

Definition frag_latin1 (P : platform) (fr : frag) : bool :=
  match fr with
  | Lit s => latin1 s
  | Val v => str_latin1 P v
  end.

(** Whether what a call puts on the page encodes to Latin-1. *)
Definition cmd_latin1 (P : platform) (c : pdf_cmd) : bool :=
  match c with
  | cell _ _ txt _ => forallb (frag_latin1 P) txt
  | multi_cell _ _ txt => forallb (frag_latin1 P) txt
  | _ => true
  end.

(** [pdf.output(name)] closes the document, which encodes the pages to
    Latin-1, and then writes the file. *)
Definition pdf_output (P : platform) (w : world) (pdf : list pdf_cmd) (name : string)
  : res (list pdf_cmd) :=
  if forallb (cmd_latin1 P) pdf
  then if write_file w name then Ok (pdf ++ [output name])%list else Raise OSError
  else Raise UnicodeEncodeError.

(** Lines 205-240 *)
Definition make_pdf (P : platform) (w : world) (max_price : Z) (props : list prop)
  : res (list pdf_cmd) :=
  bind (render_loop (pdf_header max_price) props) (fun pdf =>
  pdf_output P w pdf "listings.pdf").

(** *** run_search_and_build_pdf *)

Definition truthy_env (v : option string) : bool :=
  match v with
  | Some s => negb (String.eqb s EmptyString)
  | None => false
  end.

Definition env_str (v : option string) : string :=
  match v with Some s => s | None => "None" end.

Definition the_request (c : config) : request :=
  {| req_url := "https://" ++ env_str (RAPIDAPI_HOST c) ++ RAPIDAPI_PATH c;
     req_headers := [("x-rapidapi-key", env_str (RAPIDAPI_KEY c));
                     ("x-rapidapi-host", env_str (RAPIDAPI_HOST c))];
     req_params := [("suburb", JStr (SUBURB c)); ("state", JStr (STATE c));
                    ("price_max", JInt (MAX_PRICE c));
                    ("bedrooms_min", JInt (MIN_BEDS c));
                    ("bedrooms_max", JInt (MAX_BEDS c));
                    ("carspaces_min", JInt (MIN_CARSPACES c));
                    ("limit", JInt (LIMIT c)); ("offset", JInt 0)] |}.

Definition msg_credentials : string :=
  "RAPIDAPI_KEY and RAPIDAPI_HOST must be set as environment variables.".
Definition msg_request : string :=
  "API request failed. Check host/key/params in RapidAPI UI.".
Definition msg_container : string :=
  "No listings container found. Please paste a small sample JSON and I will adapt the script.".

(** [not listings] for the result of [find_listings_container] *)
Definition no_listings (l : option (list json)) : bool :=
  match l with
  | None => true
  | Some [] => true
  | Some (_ :: _) => false
  end.

(** The run: the calls made on the PDF object, ending with [output], or the
    exception that ends the process. *)
Definition run_search_and_build_pdf (P : platform) (c : config) (w : world)
  : res (list pdf_cmd) :=
  if negb (truthy_env (RAPIDAPI_KEY c)) || negb (truthy_env (RAPIDAPI_HOST c))
  then Raise (SystemExit msg_credentials)
  else
    match http_get w (the_request c) with
    | None => Raise RequestException
    | Some r =>
        if negb (status_code r =? 200) then Raise (SystemExit msg_request)
        else
          match body r with
          | None => Raise ValueError
          | Some j =>
              let listings := find_listings_container j in
              if no_listings listings then Raise (SystemExit msg_container)
              else
                bind (enrich_loop P w (MAX_PRICE c)
                        (match listings with Some l => l | None => [] end) (0%nat, 0%nat) [])
                     (fun r => make_pdf P w (MAX_PRICE c) (fst r))
          end
    end.

(** ** A platform and a world to run the model on

    A small libm: [sin] and [cos] by their power series, [asin] by Newton
    steps on [sin], [pow] for squares, [round(x, 2)] by scaling (the interpreter's fallback
    algorithm), [float(s)] for plain decimals, and the printable characters
    of Latin-1.  It is used to evaluate the model on examples; no theorem
    below depends on it. *)

Module Demo.

Local Open Scope float_scope.

(** Sum of [n] terms; [t] is the current term, [k] the index of its last
    factor, [x2] the square of the argument. *)
Fixpoint series (n : nat) (t x2 k acc : float) : float :=
  match n with
  | O => acc
  | S n' => series n' (- t * x2 / ((k + 1) * (k + 2))) x2 (k + 2) (acc + t)
  end.

Definition sin (x : float) : float :=
  if is_finite x then series 14 x (x * x) 1 0 else nan.

Definition cos (x : float) : float :=
  if is_finite x then series 14 1 (x * x) 0 0 else nan.

Fixpoint newton (n : nat) (q t : float) : float :=
  match n with
  | O => t
  | S n' => newton n' q (t - (sin t - q) / cos t)
  end.

Definition asin (q : float) : float :=
  if (abs q <=? 1) then newton 8 q q else nan.

Definition pow (x y : float) : float :=
  if y =? 2 then x * x else nan.

Definition round2 (x : float) : float :=
  match float_round (x * 100) with
  | Ok z => match float_of_Z z with Ok f => f / 100 | Raise _ => x end
  | Raise _ => x
  end.

(** [digits[.digits]]: the digits read so far as an integer and the number
    of them after the point. *)
Fixpoint decimal (s : list N) (m : Z) (frac : option Z) (seen : bool)
  : option (Z * Z) :=
  match s with
  | [] =>
      if seen then Some (m, match frac with Some k => k | None => 0%Z end) else None
  | c :: s' =>
      if ascii_digit c
      then decimal s' (10 * m + (Z.of_N c - 48))%Z (option_map Z.succ frac) true
      else if (c =? 46)%N
           then match frac with
                | None => decimal s' m (Some 0%Z) seen
                | Some _ => None
                end
           else None
  end.

Definition scale (mk : Z * Z) : option float :=
  match float_of_Z (fst mk), float_of_Z (10 ^ snd mk) with
  | Ok a, Ok b => Some (a / b)
  | _, _ => None
  end.

Definition unsigned_of (s : list N) : option float :=
  match decimal s 0 None false with
  | Some mk => scale mk
  | None => None
  end.

Definition of_str (s : string) : option float :=
  if String.eqb s "nan" then Some nan
  else match strip (decode s) with
       | [] => None
       | c :: s' =>
           if (c =? 45)%N then option_map opp (unsigned_of s') else unsigned_of (c :: s')
       end.

Definition printable (c : N) : bool :=
  (((32 <=? c) && (c <? 127)) || ((161 <=? c) && (c <? 256) && negb (c =? 173)))%N.

Definition platform : platform :=
  {| c_sin := sin; c_cos := cos; c_asin := asin; c_pow := pow;
     py_round2 := round2; float_of_str := of_str; isprintable := printable |}.

(** A configuration with the script's defaults and credentials set. *)
Definition config : config :=
  {| RAPIDAPI_KEY := Some "key"; RAPIDAPI_HOST := Some "realty-in-au.p.rapidapi.com";
     RAPIDAPI_PATH := "/properties/list-for-sale"; SUBURB := "Parramatta";
     STATE := "NSW"; MAX_PRICE := 500000; MIN_BEDS := 1; MAX_BEDS := 2;
     MIN_CARSPACES := 1; LIMIT := 40 |}.

(** A document with the listings [l] under "properties". *)
Definition document (l : list json) : json := JDict [("properties", JList l)].

(** A listing in Parramatta with coordinates, one whose coordinates are not
    numbers, and one whose latitude is a NaN. *)
Definition listing_with_coordinates : json :=
  JDict [("price", JStr "$450,000"); ("bedrooms", JStr "2"); ("bathrooms", JInt 2);
         ("carspaces", JInt 1); ("lat", JFloat (-33.81)); ("lon", JStr "151.01")].

Definition listing_without_numbers : json :=
  JDict [("lat", JStr "n/a"); ("lon", JStr "n/a")].


(** The world in which the listing API answers 200 with document [j],
    every geocoding lookup answers [g], and files can be written. *)
Definition world (j : json) (g : option json) : world :=
  {| http_get := fun _ => Some {| status_code := 200; body := Some j |};
     geocode := fun _ _ => g;
     write_file := fun _ => true |}.

End Demo.

(** ** Vocabulary of the specification *)

(** *** Container locator

    [located j r]: what the design says the locator returns for [j]. *)

(** A non-empty sequence whose first element is a record. *)
Definition list_of_records (v : json) : Prop :=
  exists x l, v = JList (JDict x :: l).

(** Key [k] of mapping [d] holds a sequence. *)
Definition holds_list (d : list (string * json)) (k : string) : Prop :=
  exists l, dict_get d k = Some (JList l).

Inductive located : json -> option (list json) -> Prop :=
| located_priority d pre k post l :
    candidates = (pre ++ k :: post)%list ->
    (forall k', In k' pre -> ~ holds_list d k') ->
    dict_get d k = Some (JList l) ->
    located (JDict d) (Some l)
| located_scan d before k v l after :
    (forall k', In k' candidates -> ~ holds_list d k') ->
    d = (before ++ (k, v) :: after)%list ->
    (forall e, In e before -> ~ list_of_records (snd e)) ->
    list_of_records v ->
    v = JList l ->
    located (JDict d) (Some l)
| located_sequence l :
    located (JList l) (Some l)
| located_no_entry d :
    (forall k', In k' candidates -> ~ holds_list d k') ->
    (forall e, In e d -> ~ list_of_records (snd e)) ->
    located (JDict d) None
| located_scalar j :
    is_dict j = false ->
    is_list j = false ->
    located j None.

(** *** Labels

    The design writes the labels in lower case; the script capitalises their
    first letter.  Labels are compared up to the case of ASCII letters. *)

Definition lower_ascii (c : ascii) : ascii :=
  let n := N_of_ascii c in
  if ((65 <=? n)%N && (n <=? 90)%N)%bool then ascii_of_N (n + 32) else c.

Fixpoint lower (s : string) : string :=
  match s with
  | EmptyString => EmptyString
  | String c s' => String (lower_ascii c) (lower s')
  end.

Definition has_label (label : string) (labels : list string) : Prop :=
  In label (map lower labels).

Definition count_label (label : string) (labels : list string) : nat :=
  List.length (filter (String.eqb label) (map lower labels)).

(** The three rules of the annotator, each with the pros and the cons it
    adds. *)
Definition parking_rule (i : item) : list string * list string :=
  if truthy_int (cars i) && match cars i with Some c => c >=? 1 | None => false end
  then (["Has 1+ car space"], [])
  else ([], ["No dedicated parking listed"]).

Definition bed_bath_rule (i : item) : list string * list string :=
  let beds_is_2 := match beds i with Some b => b =? 2 | None => false end in
  if beds_is_2 && truthy_int (baths i)
     && match baths i with Some b => b >=? 2 | None => false end
  then (["2 beds + 2 baths"], [])
  else if beds_is_2
          && (negb (truthy_int (baths i))
              || match baths i with Some b => b =? 1 | None => false end)
  then ([], ["Only 1 bath for 2 beds"])
  else ([], []).

Definition price_rule (max_price : Z) (i : item) : list string * list string :=
  if truthy_int (price i)
     && match price i with Some p => p <=? max_price - 50000 | None => false end
  then (["Good value under budget"], [])
  else if truthy_int (price i)
          && match price i with Some p => p >=? max_price - 10000 | None => false end
  then ([], ["Close to top of budget"])
  else ([], []).

(** The pros and the cons of a listing under a budget. *)
Definition pros_of (max_price : Z) (i : item) : list string := fst (pros_cons max_price i).
Definition cons_of (max_price : Z) (i : item) : list string := snd (pros_cons max_price i).

(** *** Prices *)

(** The decimal digits of a text, in order. *)
Definition digits_only (s : string) : list N := filter is_digit (decode s).

(** The number written by a sequence of digits, from [acc]. *)
Fixpoint decimal_value (ds : list N) (acc : Z) : Z :=
  match ds with
  | [] => acc
  | c :: ds' => decimal_value ds' (10 * acc + digit_val c)
  end.

(** The ASCII digit that [int()] reads for a decimal digit. *)
Definition ascii_of_digit (c : N) : N := (48 + Z.to_N (digit_val c))%N.

(** The text of [n] digits one. *)
Fixpoint ones (n : nat) : string :=
  match n with
  | O => EmptyString
  | S n' => String "1" (ones n')
  end.

(** More digits than [int()] reads. *)
Definition too_long (ds : list N) : Prop :=
  int_max_str_digits < Z.of_nat (List.length ds).

(** A raw value that [int()] cannot read, or that is missing or empty. *)
Definition int_unparsable (v : json) : Prop :=
  v = JNull \/ v = JStr EmptyString \/ exists e, py_int v = Raise e.

(** A raw price that is missing, a text without digits or with more digits
    than [int()] reads, a number that [int()] cannot read, or not a number or
    text at all. *)
Definition price_unparsable (v : json) : Prop :=
  match v with
  | JNull | JList _ | JDict _ => True
  | JStr s => digits_only s = [] \/ too_long (digits_only s)
  | JBool _ | JInt _ | JFloat _ => exists e, py_int v = Raise e
  end.

(** The integer read from a raw beds, baths or cars value. *)
Definition normal_int (v : json) : option Z :=
  if not_none_or_empty v
  then match py_int v with Ok z => Some z | Raise _ => None end
  else None.

(** The integer read from a raw price. *)
Definition normal_price (v : json) : option Z :=
  match v with
  | JBool b => Some (if b then 1 else 0)
  | JInt z => Some z
  | JFloat f => match float_trunc f with Ok z => Some z | Raise _ => None end
  | JStr s => match digits_only s with
              | [] => None
              | ds => if int_max_str_digits <? Z.of_nat (List.length ds) then None
                      else Some (decimal_value ds 0)
              end
  | JNull | JList _ | JDict _ => None
  end.

(** A float that is neither a NaN nor an infinity. *)
Definition finite (f : float) : bool :=
  match Prim2SF f with
  | S754_zero _ | S754_finite _ _ _ => true
  | S754_infinity _ | S754_nan => false
  end.

(** *** Listings to evaluate on *)

(** The listing with every field null, and listings that differ from a
    given one in one field. *)
Definition blank : item :=
  {| price_raw := JNull; price := None; beds := None; baths := None; cars := None;
     address := JNull; url := JNull; lat := JNull; lon := JNull |}.

Definition with_price_raw (v : json) (i : item) : item :=
  {| price_raw := v; price := price i; beds := beds i; baths := baths i;
     cars := cars i; address := address i; url := url i; lat := lat i; lon := lon i |}.

Definition with_price (o : option Z) (i : item) : item :=
  {| price_raw := price_raw i; price := o; beds := beds i; baths := baths i;
     cars := cars i; address := address i; url := url i; lat := lat i; lon := lon i |}.

Definition with_beds (o : option Z) (i : item) : item :=
  {| price_raw := price_raw i; price := price i; beds := o; baths := baths i;
     cars := cars i; address := address i; url := url i; lat := lat i; lon := lon i |}.

Definition with_baths (o : option Z) (i : item) : item :=
  {| price_raw := price_raw i; price := price i; beds := beds i; baths := o;
     cars := cars i; address := address i; url := url i; lat := lat i; lon := lon i |}.

Definition with_cars (o : option Z) (i : item) : item :=
  {| price_raw := price_raw i; price := price i; beds := beds i; baths := baths i;
     cars := o; address := address i; url := url i; lat := lat i; lon := lon i |}.

(** *** Enrichment *)

(** Two listings that agree on every field but the coordinates. *)
Definition same_listing (a b : item) : Prop :=
  price_raw a = price_raw b /\ price a = price b /\ beds a = beds b /\
  baths a = baths b /\ cars a = cars b /\ address a = address b /\ url a = url b.

(** What the distance block leaves in [dist_station_km] and [dist_park_km]. *)
Definition distances (P : platform) (i : item) : option float * option float :=
  if truthy (lat i) && truthy (lon i)
  then match rounded_distance P i STATION_COORDS with
       | Ok d1 =>
           (Some d1,
            match rounded_distance P i PARK_COORDS with
            | Ok d2 => Some d2
            | Raise _ => None
            end)
       | Raise _ => (None, None)
       end
  else (None, None).

(** The entry of [props] made for a listing whose fields, after geocoding,
    are [i]. *)
Definition prop_of (P : platform) (max_price : Z) (i : item) : prop :=
  {| raw := i; dist_station_km := fst (distances P i);
     dist_park_km := snd (distances P i);
     pros := pros_of max_price i; cons := cons_of max_price i |}.

(** The record [extract_field] makes of a raw listing. *)
Definition normalised (listing : json) : item :=
  {| price_raw := try_get listing price_keys;
     price := normal_price (try_get listing price_keys);
     beds := normal_int (try_get listing beds_keys);
     baths := normal_int (try_get listing baths_keys);
     cars := normal_int (try_get listing cars_keys);
     address := try_get listing address_keys;
     url := try_get listing url_keys; lat := try_get listing lat_keys;
     lon := try_get listing lon_keys |}.

(** An enriched listing traces back to a raw one: it is the normalised raw
    listing, but for coordinates that geocoding may have filled in. *)
Definition traces_back (P : platform) (max_price : Z) (listing : json) (p : prop) : Prop :=
  same_listing (raw p) (normalised listing) /\
  (lat (raw p) = lat (normalised listing) \/ exists x, lat (raw p) = JFloat x) /\
  (lon (raw p) = lon (normalised listing) \/ exists y, lon (raw p) = JFloat y) /\
  p = prop_of P max_price (raw p).

(** *** Report *)

(** The walking time of a distance can be computed. *)
Definition walkable (d : option float) : Prop :=
  match d with
  | Some km => exists mins, km_to_walk_minutes km = Ok mins
  | None => True
  end.

Definition renderable (p : prop) : Prop :=
  walkable (dist_station_km p) /\ walkable (dist_park_km p).

(** The separator rules drawn by a sequence of calls. *)
Definition is_rule (c : pdf_cmd) : bool :=
  match c with line_at_y _ _ => true | _ => false end.

Definition count_rules (pdf : list pdf_cmd) : nat := List.length (filter is_rule pdf).

(** The bed, bath and car line of a block. *)
Definition summary_line (bd bt cr : json) : pdf_cmd :=
  multi_cell 0 6 [Val bd; Lit " bed | "; Val bt; Lit " bath | "; Val cr; Lit " car"].

Definition with_raw (i : item) (p : prop) : prop :=
  {| raw := i; dist_station_km := dist_station_km p; dist_park_km := dist_park_km p;
     pros := pros p; cons := cons p |}.


(** *** Run *)

Definition credentials_absent (c : config) : Prop :=
  truthy_env (RAPIDAPI_KEY c) = false \/ truthy_env (RAPIDAPI_HOST c) = false.

(** *** Raw fields *)

(** The value under the first key of [keys] present in a record; null when
    none is present or the listing is not a record. *)
Definition first_present (o : json) (keys : list string) : json :=
  match o with
  | JDict d =>
      match find (fun k => match dict_get d k with Some _ => true | None => false end) keys with
      | Some k => match dict_get d k with Some v => v | None => JNull end
      | None => JNull
      end
  | _ => JNull
  end.

Definition is_float_or_null (v : json) : bool :=
  match v with
  | JNull | JFloat _ => true
  | _ => false
  end.

(** *** Geocoding *)

(** [float(geodata[0][k])] *)
Definition geo_field (P : platform) (geodata : json) (k : string) : res float :=
  bind (subscript0 geodata) (fun g => bind (getitem g k) (py_float P)).

(** The frame at the start of an iteration. *)
Definition frame0 (i : item) (io : nat * nat) : frame :=
  {| f_item := i; f_dist_station_km := None; f_dist_park_km := None;
     f_calls := fst io; f_slept := snd io |}.

Definition count_call (f : frame) : frame :=
  {| f_item := f_item f; f_dist_station_km := f_dist_station_km f;
     f_dist_park_km := f_dist_park_km f; f_calls := S (f_calls f);
     f_slept := f_slept f |}.

Definition count_sleep (f : frame) : frame :=
  {| f_item := f_item f; f_dist_station_km := f_dist_station_km f;
     f_dist_park_km := f_dist_park_km f; f_calls := f_calls f;
     f_slept := (1 + f_slept f)%nat |}.

(** The frame the geocoding block leaves. *)
Definition geocoded (P : platform) (w : world) (f : frame) : frame :=
  if (is_none (lat (f_item f)) || is_none (lon (f_item f)))
     && truthy (address (f_item f))
  then
    match geocode w (f_calls f) (address (f_item f)) with
    | None => count_call f
    | Some g =>
        if truthy g
        then match geo_field P g "lat" with
             | Raise _ => count_call f
             | Ok x =>
                 match geo_field P g "lon" with
                 | Raise _ => set_item (set_lat (JFloat x)) (count_call f)
                 | Ok y =>
                     count_sleep
                       (set_item (set_lon (JFloat y))
                          (set_item (set_lat (JFloat x)) (count_call f)))
                 end
             end
        else count_call f
    end
  else f.

(** *** Blocks *)

(** The text lines of a block. *)
Definition is_multi_cell (c : pdf_cmd) : bool :=
  match c with multi_cell _ _ _ => true | _ => false end.

Definition count_cells (pdf : list pdf_cmd) : nat :=
  List.length (filter is_multi_cell pdf).

Definition is_output (c : pdf_cmd) : bool :=
  match c with output _ => true | _ => false end.

Definition b2n (b : bool) : nat := if b then 1%nat else 0%nat.

Definition is_some {A : Type} (o : option A) : bool :=
  match o with Some _ => true | None => false end.

Definition nonempty {A : Type} (l : list A) : bool :=
  match l with [] => false | _ => true end.

(** A piece of text that shows something. *)
Definition shows (fr : frag) : Prop :=
  match fr with
  | Lit s => s <> EmptyString
  | Val v => truthy v = true
  end.

(** ** Proofs *)

Ltac zbool :=
  repeat match goal with
    | H : (_ >=? _) = _ |- _ => rewrite Z.geb_leb in H
    | H : (_ =? _) = true |- _ => apply Z.eqb_eq in H
    | H : (_ =? _) = false |- _ => apply Z.eqb_neq in H
    | H : (_ <=? _) = true |- _ => apply Z.leb_le in H
    | H : (_ <=? _) = false |- _ => apply Z.leb_gt in H
    end.

Ltac split_ifs :=
  repeat match goal with
    | |- context [if ?b then _ else _] => destruct b eqn:?
    end.

(** Evaluate the first of a conjunction of equations. *)
Ltac run_first := split; [vm_compute; reflexivity|].

Ltac count_other N :=
  unfold count_label; cbn; apply String.eqb_neq in N; rewrite N; auto.

(** *** Container locator *)

Lemma find_candidate_some d ks l :
  find_candidate d ks = Some l ->
  exists pre k post,
    ks = (pre ++ k :: post)%list /\
    (forall k', In k' pre -> ~ holds_list d k') /\
    dict_get d k = Some (JList l).
Proof.
  induction ks as [|k ks IH]; simpl; [discriminate|].
  destruct (dict_get d k) as [v|] eqn:E.
  - destruct v; try (intros H; destruct (IH H) as (pre & k0 & post & -> & Hpre & Hk);
      exists (k :: pre), k0, post; repeat split; auto;
      intros k' [<-|Hin]; [intros [l' Hl']; congruence | auto]).
    intros [= ->]. exists [], k, ks. repeat split; auto; intros k' [].
  - intros H; destruct (IH H) as (pre & k0 & post & -> & Hpre & Hk).
    exists (k :: pre), k0, post; repeat split; auto.
    intros k' [<-|Hin]; [intros [l' Hl']; congruence | auto].
Qed.

Lemma find_candidate_none d ks :
  find_candidate d ks = None ->
  forall k, In k ks -> ~ holds_list d k.
Proof.
  induction ks as [|k ks IH]; simpl; [intros _ k []|].
  intros H k' [<-|Hin] [l Hl].
  - rewrite Hl in H. discriminate.
  - destruct (dict_get d k) as [[]|]; try discriminate; apply (IH H k' Hin); exists l; exact Hl.
Qed.

Lemma find_list_of_dicts_some items l :
  find_list_of_dicts items = Some l ->
  exists before k after,
    items = (before ++ (k, JList l) :: after)%list /\
    (forall e, In e before -> ~ list_of_records (snd e)) /\
    list_of_records (JList l).
Proof.
  induction items as [|[k v] items IH]; simpl; [discriminate|].
  assert (Hrec : find_list_of_dicts items = Some l ->
                 ~ list_of_records v ->
                 exists before k0 after,
                   (k, v) :: items = (before ++ (k0, JList l) :: after)%list /\
                   (forall e, In e before -> ~ list_of_records (snd e)) /\
                   list_of_records (JList l)).
  { intros H Hv. destruct (IH H) as (before & k0 & after & -> & Hb & Hl).
    exists ((k, v) :: before), k0, after. repeat split; auto.
    intros e [<-|Hin]; auto. }
  destruct v as [| | | | |l0|]; try (intros H; apply Hrec; [exact H | intros (x & l' & Hx); discriminate]).
  destruct l0 as [|h t]; [intros H; apply Hrec; [exact H | intros (x & l' & Hx); discriminate]|].
  destruct h; try (intros H; apply Hrec; [exact H | intros (x & l' & Hx); discriminate]).
  intros [= <-]. exists [], k, items. repeat split.
  - intros e [].
  - eexists _, _; reflexivity.
Qed.

Lemma find_list_of_dicts_none items :
  find_list_of_dicts items = None ->
  forall e, In e items -> ~ list_of_records (snd e).
Proof.
  induction items as [|[k v] items IH]; simpl; [intros _ e []|].
  intros H e [<-|Hin] (x & l & Hx); simpl in *.
  - subst v. discriminate.
  - destruct v as [| | | | |[|[] t]|]; try discriminate;
      apply (IH H e Hin); eexists _, _; exact Hx.
Qed.

(** The first element of a list with a property is unique. *)
Lemma first_with_unique {A} (Q : A -> Prop) (l : list A) :
  forall p1 x1 s1 p2 x2 s2,
    l = (p1 ++ x1 :: s1)%list -> l = (p2 ++ x2 :: s2)%list ->
    (forall y, In y p1 -> ~ Q y) -> (forall y, In y p2 -> ~ Q y) ->
    Q x1 -> Q x2 -> x1 = x2.
Proof.
  induction l as [|a l IH]; intros p1 x1 s1 p2 x2 s2 E1 E2 N1 N2 Q1 Q2.
  - destruct p1; discriminate.
  - destruct p1 as [|b1 p1], p2 as [|b2 p2]; cbn in E1, E2;
      injection E1 as Ea1 E1; injection E2 as Ea2 E2.
    + congruence.
    + exfalso. apply (N2 b2); [now left | rewrite <- Ea2, Ea1; exact Q1].
    + exfalso. apply (N1 b1); [now left | rewrite <- Ea1, Ea2; exact Q2].
    + apply (IH p1 x1 s1 p2 x2 s2 E1 E2); auto;
        intros y Hy; [apply N1 | apply N2]; now right.
Qed.

(** [located] determines the result. *)
Lemma located_functional j r1 r2 : located j r1 -> located j r2 -> r1 = r2.
Proof.
  intros H1 H2.
  destruct H1 as [d pre k post l Hk Hpre Hl | d before k v l after Hno Hd Hb Hv Hvl
                 | l | d Hno Hall | j Hd Hl];
    inversion H2 as [d' pre' k' post' l' Hk' Hpre' Hl' | d' before' k' v' l' after' Hno' Hd' Hb' Hv' Hvl'
                    | l' | d' Hno' Hall' | j' Hd' Hl']; subst; try discriminate; try reflexivity.
  - assert (k = k').
    { eapply (first_with_unique (holds_list d) candidates); eauto; eexists; eauto. }
    subst. congruence.
  - exfalso. apply (Hno' k); [rewrite Hk; apply in_elt | eexists; eauto].
  - exfalso. apply (Hno' k); [rewrite Hk; apply in_elt | eexists; eauto].
  - exfalso. apply (Hno k'); [rewrite Hk'; apply in_elt | eexists; eauto].
  - assert (E : (k, JList l) = (k', JList l')).
    { eapply (first_with_unique (fun e => list_of_records (snd e))); eauto. }
    congruence.
  - exfalso. apply (Hall' (k, JList l)); [apply in_elt | exact Hv].
  - exfalso. apply (Hno k'); [rewrite Hk'; apply in_elt | eexists; eauto].
  - exfalso. apply (Hall (k', JList l')); [apply in_elt | exact Hv'].
Qed.

(** C4. The container locator returns, for a mapping, the value of the first
    key among "properties", "listings", "results", "data", "items" that holds
    a sequence; failing that, the first value in iteration order that is a
    non-empty sequence headed by a record; a top-level sequence is returned as
    it is; anything else is not found.  In particular a sequence under
    "properties" is returned whatever the other keys are. *)
Theorem find_listings_container_located :
  forall j,
    located j (find_listings_container j) /\
    (forall d l, j = JDict d -> dict_get d "properties" = Some (JList l) ->
                 find_listings_container j = Some l).
Proof.
  intros j; split.
  - destruct j; try (apply located_scalar; reflexivity).
    + apply located_sequence.
    + unfold find_listings_container.
      destruct (find_candidate d candidates) as [l|] eqn:Hc.
      * destruct (find_candidate_some _ _ _ Hc) as (pre & k & post & Hks & Hpre & Hk).
        eapply located_priority; eauto.
      * pose proof (find_candidate_none _ _ Hc) as Hno.
        destruct (find_list_of_dicts d) as [l|] eqn:Hs.
        -- destruct (find_list_of_dicts_some _ _ Hs) as (before & k & after & Hd & Hb & Hl).
           eapply located_scan; eauto.
        -- apply located_no_entry; auto. apply find_list_of_dicts_none; exact Hs.
  - intros d l -> Hp. simpl. rewrite Hp. reflexivity.
Qed.

Lemma find_listings_container_located_witness :
  located (JDict [("total", JInt 2); ("properties", JList [JInt 1]); ("items", JList [])])
          (Some [JInt 1]) /\
  find_listings_container
    (JDict [("total", JInt 2); ("properties", JList [JInt 1]); ("items", JList [])])
  = Some [JInt 1].
Proof.
  destruct (find_listings_container_located
              (JDict [("total", JInt 2); ("properties", JList [JInt 1]); ("items", JList [])]))
    as [H1 H2].
  split.
  - exact H1.
  - apply (H2 _ _ eq_refl). reflexivity.
Defined.

(** *** Normaliser *)

Lemma float_trunc_exception f e : float_trunc f = Raise e -> is_Exception e = true.
Proof.
  unfold float_trunc. destruct (Prim2SF f); intros [= <-]; reflexivity.
Qed.

Lemma int_str_exception cs e : int_str cs = Raise e -> is_Exception e = true.
Proof.
  unfold int_str. destruct (int_of_codes cs); intros [= <-]; reflexivity.
Qed.

Lemma py_int_exception v e : py_int v = Raise e -> is_Exception e = true.
Proof.
  destruct v; cbn [py_int]; try (intros [= <-]; reflexivity).
  - apply float_trunc_exception.
  - apply int_str_exception.
Qed.

(** What [int_or_none] returns. *)
Lemma int_or_none_spec v : int_or_none v = Ok (normal_int v).
Proof.
  unfold int_or_none, normal_int. destruct (not_none_or_empty v); [|reflexivity].
  destruct (py_int v) as [z|e] eqn:E; simpl; [reflexivity|].
  rewrite (py_int_exception _ _ E). reflexivity.
Qed.

(** The runs that [findall] returns hold the digits of the text, in order. *)
Lemma concat_findall_digits s :
  forall cur, List.concat (findall_digits cur s) = (cur ++ filter is_digit s)%list.
Proof.
  induction s as [|c s IH]; intros cur; cbn [findall_digits filter].
  - destruct cur; cbn; rewrite ?app_nil_r; reflexivity.
  - destruct (is_digit c).
    + rewrite IH, <- app_assoc. reflexivity.
    + destruct cur as [|a cur]; [apply IH|].
      cbn [List.concat]. rewrite IH. reflexivity.
Qed.

Lemma findall_digits_nil s :
  forall cur, findall_digits cur s = [] <-> cur = [] /\ filter is_digit s = [].
Proof.
  induction s as [|c s IH]; intros cur; cbn [findall_digits filter].
  - destruct cur; split; try discriminate; intuition discriminate.
  - destruct (is_digit c).
    + rewrite IH. split; intros [H1 H2]; try discriminate.
      destruct cur; discriminate.
    + destruct cur; [apply IH|]. split; [discriminate | intros [? ?]; discriminate].
Qed.

Lemma filter_digits_remove_commas s :
  filter is_digit (remove_commas s) = filter is_digit s.
Proof.
  induction s as [|c s IH]; cbn [remove_commas filter]; [reflexivity|].
  destruct (c =? 44)%N eqn:E.
  - apply N.eqb_eq in E. subst c. change (is_digit 44) with false. exact IH.
  - cbn [filter]. rewrite IH. reflexivity.
Qed.

Lemma forallb_filter {A} (f : A -> bool) l : forallb f (filter f l) = true.
Proof.
  apply forallb_forall. intros x Hx. apply filter_In in Hx. tauto.
Qed.

Lemma filter_all {A} (f : A -> bool) l : forallb f l = true -> filter f l = l.
Proof.
  induction l as [|a l IH]; cbn; [reflexivity|].
  intros H. apply andb_prop in H. destruct H as [Ha Hl].
  rewrite Ha, (IH Hl). reflexivity.
Qed.

(** The value of a decimal digit, and where the digit stands in its run. *)
Lemma decimal_of_range c d :
  decimal_of c = Some d ->
  (d <= 9)%N /\ exists z, In z digit_zeros /\ c = (z + d)%N.
Proof.
  unfold decimal_of.
  destruct (find _ digit_zeros) as [z|] eqn:E; [|discriminate].
  intros [= <-]. apply find_some in E. destruct E as [Hin Hz].
  apply andb_prop in Hz. destruct Hz as [H1 H2]. apply N.leb_le in H1, H2.
  split; [lia|]. exists z. split; [exact Hin | lia].
Qed.

Lemma digit_zeros_ascii z : In z digit_zeros -> (z < 128)%N -> z = 48%N.
Proof.
  intros Hin Hlt.
  assert (H : forallb (fun z => (z =? 48) || (128 <=? z))%N digit_zeros = true)
    by (vm_compute; reflexivity).
  rewrite forallb_forall in H. specialize (H z Hin).
  apply orb_prop in H. destruct H as [H | H].
  - apply N.eqb_eq in H. exact H.
  - apply N.leb_le in H. lia.
Qed.

Lemma unicode_space_not_digit c : is_unicode_space c = true -> decimal_of c = None.
Proof.
  unfold is_unicode_space. intros H. apply existsb_exists in H.
  destruct H as (x & Hin & Hx). apply N.eqb_eq in Hx. subst x.
  assert (A : forallb (fun x => negb (is_digit x)) unicode_spaces = true)
    by (vm_compute; reflexivity).
  rewrite forallb_forall in A. specialize (A c Hin). unfold is_digit in A.
  destruct (decimal_of c); [discriminate | reflexivity].
Qed.

Lemma digit_val_bounds c : 0 <= digit_val c <= 9.
Proof.
  unfold digit_val. destruct (decimal_of c) as [d|] eqn:E; [|lia].
  apply decimal_of_range in E. lia.
Qed.

Lemma ascii_of_digit_spec c :
  ascii_digit (ascii_of_digit c) = true /\
  Z.of_N (ascii_of_digit c) - 48 = digit_val c.
Proof.
  pose proof (digit_val_bounds c) as H. unfold ascii_of_digit, ascii_digit.
  split; [apply andb_true_intro; split; apply N.leb_le; lia | lia].
Qed.

(** What [int()] makes of a digit before it reads it. *)
Lemma transform_digit c d :
  decimal_of c = Some d ->
  ascii_of_digit c = (48 + d)%N /\
  ((c < 128)%N -> c = (48 + d)%N) /\
  is_unicode_space c = false.
Proof.
  intros E. repeat apply conj.
  - unfold ascii_of_digit, digit_val. rewrite E. lia.
  - intros Hc. destruct (decimal_of_range c d E) as (_ & z & Hin & ->).
    rewrite (digit_zeros_ascii z Hin) by lia. reflexivity.
  - destruct (is_unicode_space c) eqn:Es; [|reflexivity].
    apply unicode_space_not_digit in Es. congruence.
Qed.

Lemma transform_digits ds :
  forallb is_digit ds = true -> transform ds = map ascii_of_digit ds.
Proof.
  induction ds as [|c ds IH]; cbn [forallb transform map]; [reflexivity|].
  intros H. apply andb_prop in H. destruct H as [Hc Hds].
  unfold is_digit in Hc. destruct (decimal_of c) as [d|] eqn:E; [|discriminate].
  destruct (transform_digit c d E) as (Ha & Hlow & Hs).
  rewrite Hs, (IH Hds), Ha.
  destruct (c <? 127)%N eqn:El; [|reflexivity].
  apply N.ltb_lt in El. rewrite <- Hlow by lia. reflexivity.
Qed.

Lemma to_ascii_digits ds :
  forallb is_digit ds = true -> to_ascii ds = map ascii_of_digit ds.
Proof.
  intros H. unfold to_ascii.
  destruct (forallb (fun c => (c <? 128)%N) ds) eqn:Ea; [|apply transform_digits; exact H].
  rewrite <- (map_id ds) at 1. apply map_ext_in. intros c Hin.
  rewrite forallb_forall in H, Ea. specialize (H c Hin). specialize (Ea c Hin).
  apply N.ltb_lt in Ea. unfold is_digit in H.
  destruct (decimal_of c) as [d|] eqn:E; [|discriminate].
  destruct (transform_digit c d E) as (Ha & Hlow & _).
  rewrite Ha. apply Hlow. exact Ea.
Qed.

Lemma ascii_digits_map ds : forallb ascii_digit (map ascii_of_digit ds) = true.
Proof.
  apply forallb_forall. intros x Hx. apply in_map_iff in Hx.
  destruct Hx as (c & <- & _). apply ascii_of_digit_spec.
Qed.

Lemma ascii_digit_not_space c : ascii_digit c = true -> is_space c = false.
Proof.
  unfold ascii_digit, is_space. intros H. apply andb_prop in H.
  destruct H as [H1 H2]. apply N.leb_le in H1, H2.
  apply orb_false_iff. split.
  - apply andb_false_iff. right. apply N.leb_gt. lia.
  - apply N.eqb_neq. lia.
Qed.

Lemma lstrip_digits l : forallb ascii_digit l = true -> lstrip l = l.
Proof.
  destruct l as [|c l]; cbn [forallb lstrip]; [reflexivity|].
  intros H. apply andb_prop in H. destruct H as [H _].
  rewrite (ascii_digit_not_space _ H). reflexivity.
Qed.

Lemma strip_digits l : forallb ascii_digit l = true -> strip l = l.
Proof.
  intros H. unfold strip. rewrite (lstrip_digits _ H).
  rewrite lstrip_digits; [apply rev_involutive|].
  apply forallb_forall. intros x Hx. apply in_rev in Hx.
  rewrite forallb_forall in H. exact (H x Hx).
Qed.

Lemma int_digits_digits ds :
  forall acc prev, (ds <> [] \/ prev = true) ->
                   int_digits (map ascii_of_digit ds) acc prev = Some (decimal_value ds acc).
Proof.
  induction ds as [|c ds IH]; cbn [map int_digits decimal_value]; intros acc prev Hne.
  - destruct Hne as [Hne | ->]; [congruence | reflexivity].
  - destruct (ascii_of_digit_spec c) as [Hd Hv]. rewrite Hd, Hv.
    apply IH. now right.
Qed.

(** [int()] on a text made of decimal digits only. *)
Lemma int_of_codes_digits ds :
  forallb is_digit ds = true -> ds <> [] ->
  int_of_codes ds =
  if int_max_str_digits <? Z.of_nat (List.length ds) then None
  else Some (decimal_value ds 0).
Proof.
  intros H Hne. unfold int_of_codes.
  rewrite (to_ascii_digits _ H), (strip_digits _ (ascii_digits_map ds)).
  assert (U : unsigned (map ascii_of_digit ds) =
              if int_max_str_digits <? Z.of_nat (List.length ds) then None
              else Some (decimal_value ds 0)).
  { unfold unsigned. rewrite (filter_all _ _ (ascii_digits_map ds)), length_map.
    rewrite int_digits_digits by (left; exact Hne). reflexivity. }
  destruct ds as [|c ds]; [congruence|]. cbn [map] in *.
  destruct (ascii_of_digit_spec c) as [Hd _]. unfold ascii_digit in Hd.
  apply andb_prop in Hd. destruct Hd as [H1 H2]. apply N.leb_le in H1, H2.
  destruct (ascii_of_digit c =? 43)%N eqn:E1; [apply N.eqb_eq in E1; lia|].
  destruct (ascii_of_digit c =? 45)%N eqn:E2; [apply N.eqb_eq in E2; lia|].
  exact U.
Qed.

(** What [price_value] returns. *)
Lemma price_value_spec v : price_value v = Ok (normal_price v).
Proof.
  unfold price_value.
  destruct v as [|b|z|f|s|l|d]; cbn [is_number py_int normal_price bind try_except];
    try reflexivity.
  - destruct (float_trunc f) as [z|e] eqn:E; cbn [bind try_except]; [reflexivity|].
    rewrite (float_trunc_exception _ _ E). reflexivity.
  - unfold digits_only.
    destruct (findall_digits [] (remove_commas (decode s))) as [|n ns] eqn:E.
    + apply findall_digits_nil in E. destruct E as [_ E].
      rewrite filter_digits_remove_commas in E. rewrite E. reflexivity.
    + rewrite <- E. rewrite concat_findall_digits. cbn [app].
      rewrite filter_digits_remove_commas.
      destruct (filter is_digit (decode s)) as [|c ds] eqn:Ed.
      * assert (F : findall_digits [] (remove_commas (decode s)) = []).
        { apply findall_digits_nil. now rewrite filter_digits_remove_commas. }
        congruence.
      * unfold int_str. rewrite int_of_codes_digits.
        -- destruct (int_max_str_digits <? Z.of_nat (List.length (c :: ds))); reflexivity.
        -- rewrite <- Ed. apply forallb_filter.
        -- discriminate.
Qed.

(** [extract_field] returns, and the record it returns. *)
Lemma extract_field_spec listing : extract_field listing = Ok (normalised listing).
Proof.
  unfold extract_field.
  rewrite price_value_spec, !int_or_none_spec. reflexivity.
Qed.

Lemma normal_int_unparsable v : int_unparsable v -> normal_int v = None.
Proof.
  intros Hu. unfold normal_int.
  destruct Hu as [-> | [-> | [e He]]]; try reflexivity.
  rewrite He. destruct (not_none_or_empty v); reflexivity.
Qed.

Lemma normal_price_text s :
  normal_price (JStr s) =
  if match digits_only s with [] => true | _ => false end
     || (int_max_str_digits <? Z.of_nat (List.length (digits_only s)))
  then None else Some (decimal_value (digits_only s) 0).
Proof.
  cbn [normal_price]. destruct (digits_only s); reflexivity.
Qed.

Lemma normal_price_unparsable v : price_unparsable v -> normal_price v = None.
Proof.
  destruct v as [|b|z|f|s|l|d]; intros Hu; try reflexivity.
  - destruct Hu as [e He]; discriminate.
  - destruct Hu as [e He]; discriminate.
  - destruct Hu as [e He]. cbn in *. rewrite He. reflexivity.
  - rewrite normal_price_text. cbn [price_unparsable] in Hu. unfold too_long in Hu.
    destruct Hu as [-> | Hu]; [reflexivity|].
    apply Z.ltb_lt in Hu. rewrite Hu, orb_true_r. reflexivity.
Qed.

(** C6. The normaliser returns a record for every raw listing, whatever its
    shape, and never raises: a beds, baths or cars value that is missing,
    empty or unreadable by [int()] (such as "abc") becomes null, and so does
    a price that cannot be read. *)
Theorem extract_field_never_raises :
  forall listing,
  exists i,
    extract_field listing = Ok i /\
    (int_unparsable (try_get listing beds_keys) -> beds i = None) /\
    (int_unparsable (try_get listing baths_keys) -> baths i = None) /\
    (int_unparsable (try_get listing cars_keys) -> cars i = None) /\
    (price_unparsable (try_get listing price_keys) -> price i = None).
Proof.
  intros listing.
  eexists; split; [apply extract_field_spec|].
  unfold normalised; cbn [price_raw price beds baths cars address url lat lon].
  repeat apply conj; first [apply normal_int_unparsable | apply normal_price_unparsable].
Qed.

Lemma extract_field_never_raises_witness :
  exists i,
    extract_field (JDict [("price", JStr "POA"); ("beds", JStr "abc");
                          ("baths", JStr EmptyString); ("lat", JInt 1)]) = Ok i /\
    beds i = None /\ baths i = None /\ cars i = None /\ price i = None.
Proof.
  destruct (extract_field_never_raises
              (JDict [("price", JStr "POA"); ("beds", JStr "abc");
                      ("baths", JStr EmptyString); ("lat", JInt 1)]))
    as (i & H & Hb & Ht & Hc & Hp).
  exists i. split; [exact H|]. repeat split.
  - apply Hb. right; right. exists ValueError. reflexivity.
  - apply Ht. right; left. reflexivity.
  - apply Hc. left. reflexivity.
  - apply Hp. left. reflexivity.
Defined.

Lemma float_trunc_finite f :
  finite f = true -> exists z, float_trunc f = Ok z.
Proof.
  unfold finite, float_trunc. destruct (Prim2SF f); try discriminate; eauto.
Qed.

Lemma float_trunc_not_finite f :
  finite f = false -> exists e, float_trunc f = Raise e.
Proof.
  unfold finite, float_trunc. destruct (Prim2SF f); try discriminate; eauto.
Qed.

(** C5, as the script has it.  A raw price that is an integer is kept, a
    boolean counts as 1 or 0, a finite float is truncated by [int()], and a
    float that is a NaN or an infinity gives null.  For a text, the digit
    runs found after the commas are removed, concatenated, are the decimal
    digits of the text in order (of any script: [\d] and [int()] read them
    all); the price is the number they write, and null when the text has no
    digit or more than 4300 of them, which [int()] refuses.  A missing price
    gives null. *)
Theorem price_normalised :
  forall listing,
  exists i,
    extract_field listing = Ok i /\
    (forall z, try_get listing price_keys = JInt z -> price i = Some z) /\
    (forall b, try_get listing price_keys = JBool b ->
               price i = Some (if b then 1 else 0)) /\
    (forall f, try_get listing price_keys = JFloat f -> finite f = true ->
               exists z, float_trunc f = Ok z /\ price i = Some z) /\
    (forall f, try_get listing price_keys = JFloat f -> finite f = false ->
               price i = None) /\
    (forall s, try_get listing price_keys = JStr s ->
               List.concat (findall_digits [] (remove_commas (decode s))) = digits_only s /\
               (digits_only s <> [] -> ~ too_long (digits_only s) ->
                int_str (digits_only s) = Ok (decimal_value (digits_only s) 0) /\
                price i = Some (decimal_value (digits_only s) 0)) /\
               (digits_only s = [] \/ too_long (digits_only s) -> price i = None)) /\
    (try_get listing price_keys = JNull -> price i = None).
Proof.
  intros listing.
  eexists; split; [apply extract_field_spec|].
  unfold normalised; cbn [price_raw price beds baths cars address url lat lon].
  generalize (try_get listing price_keys). intros v.
  repeat apply conj.
  - intros z ->. reflexivity.
  - intros b0 ->. reflexivity.
  - intros f -> Hf. destruct (float_trunc_finite _ Hf) as [z Hz].
    exists z. simpl. rewrite Hz. auto.
  - intros f -> Hf. destruct (float_trunc_not_finite _ Hf) as [e He].
    simpl. rewrite He. reflexivity.
  - intros s ->. repeat apply conj.
    + rewrite concat_findall_digits. apply filter_digits_remove_commas.
    + intros Hne Hlen. unfold too_long in Hlen. apply Z.ltb_nlt in Hlen. split.
      * unfold int_str. rewrite int_of_codes_digits, Hlen; auto.
        apply forallb_filter.
      * rewrite normal_price_text, Hlen.
        destruct (digits_only s); [congruence | reflexivity].
    + intros Hu. apply normal_price_unparsable. exact Hu.
  - intros ->. reflexivity.
Qed.

Lemma price_normalised_witness :
  exists i,
    extract_field (JDict [("price", JStr "$450,000")]) = Ok i /\
    price i = Some 450000.
Proof.
  destruct (price_normalised (JDict [("price", JStr "$450,000")]))
    as (i & H & _ & _ & _ & _ & Hs & _).
  exists i. split; [exact H|].
  destruct (Hs "$450,000"%string eq_refl) as (_ & Hv & _).
  destruct Hv as [_ Hv].
  - vm_compute. discriminate.
  - vm_compute. discriminate.
  - exact Hv.
Defined.

(** C5 as stated fails: a price that is numeric is not always coerced to an
    integer.  The JSON number [1e999] is read as the float infinity, which
    [int()] rejects, and the normalised price is null. *)
Lemma price_of_infinity_is_null :
  exists i,
    extract_field (JDict [("price", JFloat infinity)]) = Ok i /\
    is_number (try_get (JDict [("price", JFloat infinity)]) price_keys) = true /\
    price i = None.
Proof.
  eexists. repeat split.
Qed.

(** *** Coordinates *)

Lemma try_get_first_present o keys : try_get o keys = first_present o keys.
Proof.
  destruct o; try (induction keys; simpl; auto; fail).
  induction keys as [|k keys IH]; [reflexivity|].
  simpl in *. destruct (dict_get d k) eqn:E.
  - rewrite E. reflexivity.
  - exact IH.
Qed.

(** C8, as the script has it.  The latitude and longitude of the normalised
    listing are the provider's raw values, unchanged: the value under the
    first present key among "lat", "latitude" (resp. "lon", "lng",
    "longitude"), and null when there is none.  They are converted to floats
    only when the distances are computed. *)
Theorem coordinates_carried_over :
  forall listing,
  exists i,
    extract_field listing = Ok i /\
    lat i = first_present listing lat_keys /\
    lon i = first_present listing lon_keys.
Proof.
  intros listing.
  eexists; split; [apply extract_field_spec|].
  unfold normalised; cbn [price_raw price beds baths cars address url lat lon].
  split; apply try_get_first_present.
Qed.

(** C8 as stated fails: a latitude given as text stays a text. *)
Lemma coordinates_not_always_float :
  exists i,
    extract_field (JDict [("lat", JStr "-33.8"); ("lon", JStr "151.0")]) = Ok i /\
    lat i = JStr "-33.8" /\
    is_float_or_null (lat i) = false /\
    is_float_or_null (lon i) = false.
Proof.
  eexists. repeat split.
Qed.

(** *** Annotator *)

(** The annotator applies its three rules one after the other. *)
Lemma pros_cons_rules max_price i :
  pros_cons max_price i =
  ((fst (parking_rule i) ++ fst (bed_bath_rule i) ++ fst (price_rule max_price i))%list,
   (snd (parking_rule i) ++ snd (bed_bath_rule i) ++ snd (price_rule max_price i))%list).
Proof.
  unfold pros_cons, parking_rule, bed_bath_rule, price_rule.
  split_ifs; reflexivity.
Qed.

Lemma has_label_app label a b :
  has_label label (a ++ b) <-> has_label label a \/ has_label label b.
Proof. unfold has_label. rewrite map_app. apply in_app_iff. Qed.

Lemma count_label_app label a b :
  count_label label (a ++ b) = (count_label label a + count_label label b)%nat.
Proof.
  unfold count_label. rewrite map_app, filter_app, length_app. reflexivity.
Qed.

(** Each rule produces its own two labels and no other. *)
Lemma parking_rule_labels i l :
  l <> "has 1+ car space"%string -> l <> "no dedicated parking listed"%string ->
  count_label l (fst (parking_rule i)) = 0%nat /\
  count_label l (snd (parking_rule i)) = 0%nat.
Proof.
  intros N1 N2. unfold parking_rule. split_ifs; cbn [fst snd]; split;
    solve [reflexivity | count_other N1 | count_other N2].
Qed.

Lemma bed_bath_rule_labels i l :
  l <> "2 beds + 2 baths"%string -> l <> "only 1 bath for 2 beds"%string ->
  count_label l (fst (bed_bath_rule i)) = 0%nat /\
  count_label l (snd (bed_bath_rule i)) = 0%nat.
Proof.
  intros N1 N2. unfold bed_bath_rule. split_ifs; cbn [fst snd]; split;
    solve [reflexivity | count_other N1 | count_other N2].
Qed.

Lemma price_rule_labels max_price i l :
  l <> "good value under budget"%string -> l <> "close to top of budget"%string ->
  count_label l (fst (price_rule max_price i)) = 0%nat /\
  count_label l (snd (price_rule max_price i)) = 0%nat.
Proof.
  intros N1 N2. unfold price_rule. split_ifs; cbn [fst snd]; split;
    solve [reflexivity | count_other N1 | count_other N2].
Qed.

(** C7. A listing with at least one car space gets the pro "has 1+ car
    space"; any other listing (cars null, zero or below 1) gets the con "no
    dedicated parking listed"; exactly one of the two labels is produced. *)
Theorem parking_label :
  forall max_price i,
    ((exists c, cars i = Some c /\ 1 <= c) ->
     has_label "has 1+ car space" (pros_of max_price i)) /\
    (~ (exists c, cars i = Some c /\ 1 <= c) ->
     has_label "no dedicated parking listed" (cons_of max_price i)) /\
    (count_label "has 1+ car space" (pros_of max_price i ++ cons_of max_price i)
     + count_label "no dedicated parking listed" (pros_of max_price i ++ cons_of max_price i)
     = 1)%nat.
Proof.
  intros max_price i. unfold pros_of, cons_of.
  rewrite pros_cons_rules. cbn [fst snd].
  destruct (bed_bath_rule_labels i "has 1+ car space") as [B1 B2]; try discriminate.
  destruct (bed_bath_rule_labels i "no dedicated parking listed") as [B3 B4];
    try discriminate.
  destruct (price_rule_labels max_price i "has 1+ car space") as [P1 P2];
    try discriminate.
  destruct (price_rule_labels max_price i "no dedicated parking listed") as [P3 P4];
    try discriminate.
  rewrite !count_label_app, B1, B2, B3, B4, P1, P2, P3, P4.
  rewrite !has_label_app.
  unfold parking_rule, truthy_int.
  destruct (cars i) as [c|].
  - destruct (c =? 0) eqn:E0; destruct (c >=? 1) eqn:E1; zbool; cbn;
      (repeat apply conj;
       [ intros (c' & E' & H'); injection E' as <-; try lia; unfold has_label; cbn; tauto
       | intros Hno; try (exfalso; apply Hno; eexists; split; [reflexivity | lia]);
         unfold has_label; cbn; tauto
       | reflexivity ]).
  - cbn. repeat apply conj.
    + intros (c' & E' & _). discriminate.
    + intros _. unfold has_label. cbn. tauto.
    + reflexivity.
Qed.

Lemma parking_label_witness :
  has_label "has 1+ car space" (pros_of 500000 (with_cars (Some 1) blank)) /\
  has_label "no dedicated parking listed" (cons_of 500000 (with_cars (Some 0) blank)).
Proof.
  split.
  - apply (parking_label 500000). exists 1. split; [reflexivity | lia].
  - apply (parking_label 500000). intros (c & E & H). injection E as <-. lia.
Defined.

(** C3, as the script has it.  A price that is known and not zero gets the
    pro "good value under budget" when it is at most [max_price - 50000] and
    the con "close to top of budget" when it is at least [max_price - 10000];
    a price that is null, or strictly between the two thresholds, gets no
    price label. *)
Theorem price_label :
  forall max_price i,
    (forall p, price i = Some p -> p <> 0 -> p <= max_price - 50000 ->
               has_label "good value under budget" (pros_of max_price i)) /\
    (forall p, price i = Some p -> p <> 0 -> max_price - 10000 <= p ->
               has_label "close to top of budget" (cons_of max_price i)) /\
    (price i = None \/
     (exists p, price i = Some p /\ max_price - 50000 < p < max_price - 10000) ->
     count_label "good value under budget" (pros_of max_price i ++ cons_of max_price i)
     = 0%nat /\
     count_label "close to top of budget" (pros_of max_price i ++ cons_of max_price i)
     = 0%nat).
Proof.
  intros max_price i. unfold pros_of, cons_of.
  rewrite pros_cons_rules. cbn [fst snd].
  destruct (parking_rule_labels i "good value under budget") as [A1 A2]; try discriminate.
  destruct (parking_rule_labels i "close to top of budget") as [A3 A4]; try discriminate.
  destruct (bed_bath_rule_labels i "good value under budget") as [B1 B2]; try discriminate.
  destruct (bed_bath_rule_labels i "close to top of budget") as [B3 B4]; try discriminate.
  rewrite !count_label_app, A1, A2, A3, A4, B1, B2, B3, B4.
  unfold price_rule, truthy_int.
  destruct (price i) as [p|].
  - destruct (p =? 0) eqn:E0; destruct (p <=? max_price - 50000) eqn:E1;
      destruct (p >=? max_price - 10000) eqn:E2; zbool; cbn -[Z.sub];
      (repeat apply conj;
       [ intros p' E' N' H'; injection E' as <-; try lia;
         rewrite !has_label_app; unfold has_label; cbn; tauto
       | intros p' E' N' H'; injection E' as <-; try lia;
         rewrite !has_label_app; unfold has_label; cbn; tauto
       | intros [E' | (p' & E' & H')]; [discriminate | injection E' as <-];
         try lia; split; reflexivity ]).
  - cbn. repeat apply conj.
    + intros p' E'. discriminate.
    + intros p' E'. discriminate.
    + intros _. split; reflexivity.
Qed.

Lemma price_label_witness :
  has_label "good value under budget" (pros_of 500000 (with_price (Some 440000) blank)) /\
  has_label "close to top of budget" (cons_of 500000 (with_price (Some 495000) blank)) /\
  count_label "good value under budget"
    (pros_of 500000 (with_price (Some 470000) blank)
     ++ cons_of 500000 (with_price (Some 470000) blank)) = 0%nat.
Proof.
  repeat apply conj.
  - destruct (price_label 500000 (with_price (Some 440000) blank)) as (H & _ & _).
    apply (H 440000); [reflexivity | lia | lia].
  - destruct (price_label 500000 (with_price (Some 495000) blank)) as (_ & H & _).
    apply (H 495000); [reflexivity | lia | lia].
  - destruct (price_label 500000 (with_price (Some 470000) blank)) as (_ & _ & H).
    apply H. right. exists 470000. split; [reflexivity | lia].
Defined.

(** C3 as stated fails: a price of zero is known and under the lower
    threshold, and gets no pro. *)
Lemma zero_price_gets_no_label :
  extract_field (JDict [("price", JInt 0)])
  = Ok (with_price_raw (JInt 0) (with_price (Some 0) blank)) /\
  0 <= 500000 - 50000 /\
  pros_cons 500000 (with_price_raw (JInt 0) (with_price (Some 0) blank))
  = ([], ["No dedicated parking listed"]) /\
  ~ has_label "good value under budget"
      (pros_of 500000 (with_price_raw (JInt 0) (with_price (Some 0) blank))).
Proof.
  repeat apply conj; [reflexivity | lia | reflexivity |].
  unfold has_label. cbn. intros [].
Qed.

(** *** The loop over the listings *)

Lemma same_listing_refl i : same_listing i i.
Proof. repeat split. Qed.

(** The geocoding block never raises; it may only fill in the coordinates. *)
Lemma geocode_block_spec P w f :
  exists f',
    geocode_block P w f = (Ok tt, f') /\
    same_listing (f_item f') (f_item f) /\
    (lat (f_item f') = lat (f_item f) \/ exists x, lat (f_item f') = JFloat x) /\
    (lon (f_item f') = lon (f_item f) \/ exists y, lon (f_item f') = JFloat y) /\
    f_dist_station_km f' = f_dist_station_km f /\
    f_dist_park_km f' = f_dist_park_km f.
Proof.
  unfold geocode_block, mbind, get, when, try_pass, request_geocode, lift, modify,
    sleep, ret, set_item.
  destruct (is_none (lat (f_item f)) || is_none (lon (f_item f)));
    [|eexists; repeat split; auto].
  destruct (truthy (address (f_item f))); [|eexists; repeat split; auto].
  destruct (geocode w (f_calls f) (address (f_item f))) as [geodata|]; cbn;
    [|eexists; repeat split; auto].
  destruct (truthy geodata); cbn; [|eexists; repeat split; auto].
  destruct (subscript0 geodata) as [g|e] eqn:Eg; cbn.
  2:{ destruct geodata as [| | | | |[]|]; try destruct s; cbn in Eg; try discriminate;
      injection Eg as <-; cbn; eexists; repeat split; auto. }
  destruct (getitem g "lat") as [v|e] eqn:Ev; cbn.
  2:{ unfold getitem in Ev. destruct g; try (injection Ev as <-; cbn; eexists; repeat split; auto; fail).
      destruct (dict_get d "lat"); [discriminate|]. injection Ev as <-. cbn.
      eexists; repeat split; auto. }
  assert (Hf : forall v e, py_float P v = Raise e -> is_Exception e = true).
  { intros v0 e. destruct v0; cbn; try (intros [= <-]; reflexivity).
    - unfold float_of_Z. destruct (is_infinity _); intros [= <-]; reflexivity.
    - destruct (float_of_str P s); intros [= <-]; reflexivity. }
  destruct (py_float P v) as [x|e] eqn:Ex; cbn.
  2:{ rewrite (Hf _ _ Ex). eexists; repeat split; auto. }
  destruct (getitem g "lon") as [v'|e] eqn:Ev'; cbn.
  2:{ unfold getitem in Ev'. destruct g; try discriminate.
      destruct (dict_get d "lon"); [discriminate|]. injection Ev' as <-. cbn.
      eexists; repeat split; cbn; eauto. }
  destruct (py_float P v') as [y|e] eqn:Ey; cbn.
  2:{ rewrite (Hf _ _ Ey). eexists; repeat split; cbn; eauto. }
  eexists; repeat split; cbn; eauto.
Qed.

Lemma py_float_exception P v e : py_float P v = Raise e -> is_Exception e = true.
Proof.
  destruct v; cbn; try (intros [= <-]; reflexivity).
  - unfold float_of_Z. destruct (is_infinity _); intros [= <-]; reflexivity.
  - destruct (float_of_str P s); intros [= <-]; reflexivity.
Qed.

Lemma math_1_exception g x e : math_1 g x = Raise e -> is_Exception e = true.
Proof.
  unfold math_1.
  destruct (is_nan (g x) && negb (is_nan x)); [intros [= <-]; reflexivity|].
  destruct (is_infinity (g x) && is_finite x); intros [= <-]; reflexivity.
Qed.

Lemma bind_exception {A B} (m : res A) (k : A -> res B) e :
  bind m k = Raise e ->
  m = Raise e \/ exists a, m = Ok a /\ k a = Raise e.
Proof. destruct m; cbn; intros H; [right; eauto | left; congruence]. Qed.

Lemma float_pow2_exception P x e : float_pow2 P x = Raise e -> is_Exception e = true.
Proof.
  unfold float_pow2.
  repeat match goal with
    | |- context [if ?b then _ else _] => destruct b
    end; intros [= <-]; reflexivity.
Qed.

Lemma haversine_km_exception P a b c d e :
  haversine_km P a b c d = Raise e -> is_Exception e = true.
Proof.
  unfold haversine_km. intros H.
  repeat match goal with
    | H : bind _ _ = Raise _ |- _ =>
        apply bind_exception in H; destruct H as [H | (? & _ & H)];
        [first [apply math_1_exception in H | apply float_pow2_exception in H]; exact H|]
    end.
  discriminate.
Qed.

Lemma rounded_distance_exception P i c e :
  rounded_distance P i c = Raise e -> is_Exception e = true.
Proof.
  unfold rounded_distance. intros H.
  apply bind_exception in H. destruct H as [H | (x & _ & H)];
    [eapply py_float_exception; exact H|].
  apply bind_exception in H. destruct H as [H | (y & _ & H)];
    [eapply py_float_exception; exact H|].
  apply bind_exception in H. destruct H as [H | (d & _ & H)];
    [eapply haversine_km_exception; exact H | discriminate].
Qed.

(** The distance block never raises and leaves [distances] in the frame. *)
Lemma distance_block_spec P f :
  distance_block P f =
  (Ok tt, {| f_item := f_item f;
             f_dist_station_km := fst (distances P (f_item f));
             f_dist_park_km := snd (distances P (f_item f));
             f_calls := f_calls f; f_slept := f_slept f |}).
Proof.
  unfold distance_block, distances, mbind, get, when, try_pass, lift, modify, ret,
    set_dist_station_km, set_dist_park_km.
  cbn [f_item f_dist_station_km f_dist_park_km f_calls f_slept].
  destruct (truthy (lat (f_item f)) && truthy (lon (f_item f))); [|reflexivity].
  destruct (rounded_distance P (f_item f) STATION_COORDS) as [d1|e] eqn:E1.
  - cbn [f_item f_dist_station_km f_dist_park_km f_calls f_slept].
    destruct (rounded_distance P (f_item f) PARK_COORDS) as [d2|e] eqn:E2.
    + reflexivity.
    + rewrite (rounded_distance_exception _ _ _ _ E2). reflexivity.
  - rewrite (rounded_distance_exception _ _ _ _ E1). reflexivity.
Qed.

(** One iteration never raises, and what it appends to [props]. *)
Lemma enrich_spec P w max_price io L :
  exists p io',
    enrich P w max_price io L = Ok (p, io') /\
    traces_back P max_price L p.
Proof.
  unfold enrich. rewrite extract_field_spec. cbn [bind].
  unfold mbind at 1.
  match goal with
  | |- context [geocode_block P w ?f0] =>
      destruct (geocode_block_spec P w f0) as (f' & Hg & Hs & Hlat & Hlon & _)
  end.
  rewrite Hg, distance_block_spec.
  cbn [f_item f_dist_station_km f_dist_park_km f_calls f_slept] in *.
  destruct (pros_cons max_price (f_item f')) as [pr cn] eqn:Ep.
  eexists _, _. split; [reflexivity|].
  unfold traces_back, prop_of, pros_of, cons_of. cbn [raw]. rewrite Ep.
  repeat split; try apply Hs; assumption.
Qed.

(** The loop never raises; it appends one entry per listing, in order. *)
Lemma enrich_loop_spec P w max_price listings :
  forall io props0,
  exists props io',
    enrich_loop P w max_price listings io props0 = Ok ((props0 ++ props)%list, io') /\
    Forall2 (traces_back P max_price) listings props.
Proof.
  induction listings as [|L rest IH]; intros io props0; cbn [enrich_loop].
  - exists [], io. rewrite app_nil_r. split; [reflexivity | constructor].
  - destruct (enrich_spec P w max_price io L) as (p & io1 & Hp & Ht).
    rewrite Hp. cbn [bind fst snd].
    destruct (IH io1 (props0 ++ [p])%list) as (props & io' & Hl & Hf).
    exists (p :: props), io'. split.
    + rewrite Hl, <- app_assoc. reflexivity.
    + constructor; assumption.
Qed.

(** *** Report renderer *)

Lemma km_to_walk_minutes_exception km e :
  km_to_walk_minutes km = Raise e -> is_Exception e = true.
Proof.
  unfold km_to_walk_minutes, float_round.
  destruct (Prim2SF (km * 12)); intros [= <-]; reflexivity.
Qed.

Lemma opt_line_spec d place :
  (walkable d -> exists l, opt_line d place = Ok l /\ count_rules l = 0%nat) /\
  (forall e, opt_line d place = Raise e -> is_Exception e = true /\ ~ walkable d).
Proof.
  unfold opt_line, walkable. destruct d as [km|].
  - destruct (km_to_walk_minutes km) as [mins|e0] eqn:E; cbn [bind]; split.
    + intros _. eexists; split; reflexivity.
    + discriminate.
    + intros (mins & H). discriminate.
    + intros e [= <-]. split; [eapply km_to_walk_minutes_exception; exact E|].
      intros (mins & H). discriminate.
  - split; [intros _; eexists; split; reflexivity | discriminate].
Qed.

Lemma count_rules_app a b : count_rules (a ++ b) = (count_rules a + count_rules b)%nat.
Proof. unfold count_rules. rewrite filter_app, length_app. reflexivity. Qed.

(** A block is drawn whenever the walking times can be computed; it holds
    one separator rule; the only failure is an [Exception] of the walking
    time. *)
Lemma render_block_spec p :
  (renderable p -> exists b, render_block p = Ok b /\ count_rules b = 1%nat) /\
  (forall e, render_block p = Raise e -> is_Exception e = true /\ ~ renderable p).
Proof.
  unfold render_block, renderable.
  destruct (opt_line_spec (dist_station_km p) " km to station (~") as [S1 S2].
  destruct (opt_line_spec (dist_park_km p) " km to Parramatta Park (~") as [Q1 Q2].
  destruct (opt_line (dist_station_km p) " km to station (~") as [l1|e1] eqn:E1; cbn [bind].
  2:{ split; [intros [H _]; destruct (S1 H) as (l & Hl & _); discriminate|].
      intros e [= <-]. destruct (S2 e1 eq_refl). tauto. }
  destruct (opt_line (dist_park_km p) " km to Parramatta Park (~") as [l2|e2] eqn:E2; cbn [bind].
  2:{ split; [intros [_ H]; destruct (Q1 H) as (l & Hl & _); discriminate|].
      intros e [= <-]. destruct (Q2 e2 eq_refl). tauto. }
  split; [|discriminate].
  intros [H1 H2]. eexists; split; [reflexivity|].
  destruct (S1 H1) as (l & [= <-] & C1). destruct (Q1 H2) as (l' & [= <-] & C2).
  rewrite !count_rules_app, C1, C2.
  destruct (truthy (url (raw p))); destruct (pros p); destruct (cons p); reflexivity.
Qed.

(** The loop appends the blocks of the listings, in order. *)
Lemma render_loop_ok props :
  forall pdf,
    Forall renderable props ->
    exists blocks,
      Forall2 (fun p b => render_block p = Ok b /\ count_rules b = 1%nat) props blocks /\
      render_loop pdf props = Ok (pdf ++ List.concat blocks)%list.
Proof.
  induction props as [|p rest IH]; intros pdf Hr; cbn [render_loop].
  - exists []. split; [constructor | now rewrite app_nil_r].
  - inversion Hr as [|? ? Hp Hrest]; subst.
    destruct (proj1 (render_block_spec p) Hp) as (b & Hb & Hc).
    rewrite Hb. cbn [bind].
    destruct (IH (pdf ++ b)%list Hrest) as (blocks & Hf & Hl).
    exists (b :: blocks). split; [constructor; auto|].
    rewrite Hl. cbn [List.concat]. now rewrite app_assoc.
Qed.

Lemma render_loop_exception props :
  forall pdf e,
    render_loop pdf props = Raise e ->
    is_Exception e = true /\ ~ Forall renderable props.
Proof.
  induction props as [|p rest IH]; intros pdf e; cbn [render_loop]; [discriminate|].
  destruct (render_block p) as [b|e0] eqn:Eb; cbn [bind].
  - intros H. destruct (IH _ _ H) as [He Hn]. split; [exact He|].
    intros Hr. inversion Hr; subst. tauto.
  - intros [= <-]. destruct (proj2 (render_block_spec p) _ Eb) as [He Hn].
    split; [exact He|]. intros Hr. inversion Hr; subst. tauto.
Qed.

Lemma render_block_ok_renderable p b : render_block p = Ok b -> renderable p.
Proof.
  destruct (render_block_spec p) as [_ Hr].
  unfold render_block, renderable, walkable, opt_line. intros H.
  destruct (dist_station_km p) as [km1|];
    [destruct (km_to_walk_minutes km1) eqn:E1; [|discriminate]|];
    (destruct (dist_park_km p) as [km2|];
     [destruct (km_to_walk_minutes km2) eqn:E2; [|discriminate]|]); eauto.
Qed.

Lemma render_loop_ok_renderable props :
  forall pdf out, render_loop pdf props = Ok out -> Forall renderable props.
Proof.
  induction props as [|p rest IH]; intros pdf out; cbn [render_loop]; [constructor|].
  destruct (render_block p) as [b|e] eqn:Eb; cbn [bind]; [|discriminate].
  intros H. constructor; [eapply render_block_ok_renderable; exact Eb | eapply IH; exact H].
Qed.

Lemma count_rules_concat (props : list prop) blocks :
  Forall2 (fun p b => render_block p = Ok b /\ count_rules b = 1%nat) props blocks ->
  count_rules (List.concat blocks) = List.length props.
Proof.
  induction 1 as [|p b props blocks [_ Hc] _ IH]; [reflexivity|].
  cbn [List.concat List.length]. rewrite count_rules_app, Hc, IH. reflexivity.
Qed.

Lemma int_or_zero_or_none o d :
  o = Some 0 \/ o = None -> int_or o d = d.
Proof. intros [-> | ->]; reflexivity. Qed.

(** C10. The renderer does not tell zero from null.  A listing whose beds,
    baths or cars is 0 gets the same block as one where it is missing, with
    "?" in the summary line; a listing whose price is 0 gets the same block as
    one whose price is missing, and "Price unknown" when there is no raw
    price text. *)
Theorem zero_displayed_as_missing :
  forall p,
    (forall i, render_block (with_raw (with_beds (Some 0) i) p)
               = render_block (with_raw (with_beds None i) p)) /\
    (forall i, render_block (with_raw (with_baths (Some 0) i) p)
               = render_block (with_raw (with_baths None i) p)) /\
    (forall i, render_block (with_raw (with_cars (Some 0) i) p)
               = render_block (with_raw (with_cars None i) p)) /\
    (forall i, render_block (with_raw (with_price (Some 0) i) p)
               = render_block (with_raw (with_price None i) p)) /\
    (forall b, render_block p = Ok b ->
       (exists bd bt cr,
          nth_error b 3 = Some (summary_line bd bt cr) /\
          (beds (raw p) = Some 0 \/ beds (raw p) = None -> bd = JStr "?") /\
          (baths (raw p) = Some 0 \/ baths (raw p) = None -> bt = JStr "?") /\
          (cars (raw p) = Some 0 \/ cars (raw p) = None -> cr = JStr "?")) /\
       (exists price_text,
          nth_error b 1
          = Some (multi_cell 0 7 (Val (title_of (raw p)) :: Lit " — " :: price_text)) /\
          (price (raw p) = Some 0 -> truthy (price_raw (raw p)) = false ->
           price_text = [Lit "Price unknown"]))).
Proof.
  intros p. repeat apply conj; try (intros i; reflexivity).
  intros b. unfold render_block.
  destruct (opt_line (dist_station_km p) " km to station (~") as [l1|e1]; [|discriminate].
  destruct (opt_line (dist_park_km p) " km to Parramatta Park (~") as [l2|e2]; [|discriminate].
  cbn [bind]. intros [= <-]. split.
  - eexists _, _, _. split; [reflexivity|].
    repeat apply conj; apply int_or_zero_or_none.
  - eexists. split; [reflexivity|].
    intros Hp Hr. unfold price_text_of. rewrite Hr, Hp. reflexivity.
Qed.

Lemma zero_displayed_as_missing_witness :
  exists b,
    render_block (prop_of Demo.platform 500000
                    (with_price (Some 0) (with_beds (Some 0) (with_cars (Some 0) blank))))
    = Ok b /\
    nth_error b 3 = Some (summary_line (JStr "?") (JStr "?") (JStr "?")) /\
    nth_error b 1
    = Some (multi_cell 0 7 [Val (JStr "Property"); Lit " — "; Lit "Price unknown"]).
Proof.
  eexists. split; [reflexivity|].
  destruct (zero_displayed_as_missing
              (prop_of Demo.platform 500000
                 (with_price (Some 0) (with_beds (Some 0) (with_cars (Some 0) blank)))))
    as (_ & _ & _ & _ & H).
  destruct (H _ eq_refl) as [(bd & bt & cr & Hs & Hb & Ht & Hc) (pt & Hl & Hp)].
  split.
  - rewrite Hs. rewrite Hb, Ht, Hc by (cbn; auto). reflexivity.
  - rewrite Hl. rewrite Hp by reflexivity. reflexivity.
Defined.

(** *** The run *)

(** The dash that line 217 writes between the title and the price is U+2014,
    which Latin-1 does not have. *)
Lemma dash_beyond_latin1 : latin1 " — " = false.
Proof. vm_compute. reflexivity. Qed.

(** Every block holds it. *)
Lemma render_block_beyond_latin1 P p b :
  render_block p = Ok b -> forallb (cmd_latin1 P) b = false.
Proof.
  unfold render_block.
  destruct (opt_line (dist_station_km p) " km to station (~") as [l1|e1]; [|discriminate].
  destruct (opt_line (dist_park_km p) " km to Parramatta Park (~") as [l2|e2];
    [|discriminate].
  cbn [bind]. intros [= <-].
  cbn [app forallb cmd_latin1 frag_latin1]. rewrite dash_beyond_latin1.
  cbn [andb]. rewrite andb_false_r. reflexivity.
Qed.

Lemma render_loop_beyond_latin1 P props :
  forall pdf out,
    props <> [] -> render_loop pdf props = Ok out -> forallb (cmd_latin1 P) out = false.
Proof.
  intros pdf out Hne H.
  destruct (render_loop_ok props pdf (render_loop_ok_renderable _ _ _ H))
    as (blocks & Hf & Hl).
  rewrite Hl in H. injection H as <-.
  destruct Hf as [|p b props blocks [Hb _] _]; [congruence|].
  cbn [List.concat]. rewrite !forallb_app, (render_block_beyond_latin1 P p b Hb).
  cbn [andb]. apply andb_false_r.
Qed.

Lemma header_latin1 P max_price : forallb (cmd_latin1 P) (pdf_header max_price) = true.
Proof. reflexivity. Qed.

(** The report of an empty list would be written. *)
Lemma make_pdf_nil P w max_price :
  make_pdf P w max_price [] =
  if write_file w "listings.pdf"
  then Ok (pdf_header max_price ++ [output "listings.pdf"])%list
  else Raise OSError.
Proof.
  unfold make_pdf, pdf_output. cbn [render_loop bind]. rewrite header_latin1. reflexivity.
Qed.

Lemma make_pdf_exception P w max_price props e :
  make_pdf P w max_price props = Raise e -> is_Exception e = true.
Proof.
  unfold make_pdf, pdf_output.
  destruct (render_loop (pdf_header max_price) props) as [pdf|e0] eqn:E; cbn [bind].
  - destruct (forallb (cmd_latin1 P) pdf);
      [destruct (write_file w "listings.pdf"); [discriminate|] |];
      intros [= <-]; reflexivity.
  - intros [= <-]. eapply render_loop_exception; exact E.
Qed.

(** The report of a list that is not empty is never written: either the
    renderer raises, or [output] does, for the dash. *)
Lemma make_pdf_raises P w max_price props :
  props <> [] ->
  exists e,
    make_pdf P w max_price props = Raise e /\ is_Exception e = true /\
    (Forall renderable props -> e = UnicodeEncodeError).
Proof.
  intros Hne. unfold make_pdf, pdf_output.
  destruct (render_loop (pdf_header max_price) props) as [pdf|e0] eqn:E; cbn [bind].
  - rewrite (render_loop_beyond_latin1 P props _ _ Hne E).
    exists UnicodeEncodeError. repeat split.
  - exists e0. split; [reflexivity|].
    destruct (render_loop_exception _ _ _ E) as [He Hn]. split; [exact He | tauto].
Qed.

Lemma truthy_env_present c :
  ~ credentials_absent c <->
  truthy_env (RAPIDAPI_KEY c) = true /\ truthy_env (RAPIDAPI_HOST c) = true.
Proof.
  unfold credentials_absent.
  destruct (truthy_env (RAPIDAPI_KEY c)), (truthy_env (RAPIDAPI_HOST c)); intuition congruence.
Qed.

(** C1, as the script has it.  The run ends with [SystemExit] and its
    message exactly when the credentials are absent or empty, or the listing
    API answers with a status other than 200, or the locator finds no
    container or an empty one.  When the API answers 200 with a document whose
    container is not empty, every listing is enriched, in order and without
    error, and the run goes on to the report of the enriched listings: it
    ends as [make_pdf] does, with no diagnostic. *)
Theorem run_outcome :
  forall P c w,
    (forall msg,
       run_search_and_build_pdf P c w = Raise (SystemExit msg) <->
       (credentials_absent c /\ msg = msg_credentials) \/
       (~ credentials_absent c /\
        exists r, http_get w (the_request c) = Some r /\
                  status_code r <> 200 /\ msg = msg_request) \/
       (~ credentials_absent c /\
        exists r j, http_get w (the_request c) = Some r /\
                    status_code r = 200 /\ body r = Some j /\
                    no_listings (find_listings_container j) = true /\
                    msg = msg_container)) /\
    (forall r j,
       ~ credentials_absent c ->
       http_get w (the_request c) = Some r ->
       status_code r = 200 ->
       body r = Some j ->
       no_listings (find_listings_container j) = false ->
       exists listings props io,
         find_listings_container j = Some listings /\
         enrich_loop P w (MAX_PRICE c) listings (0%nat, 0%nat) [] = Ok (props, io) /\
         Forall2 (traces_back P (MAX_PRICE c)) listings props /\
         run_search_and_build_pdf P c w = make_pdf P w (MAX_PRICE c) props).
Proof.
  intros P c w. split.
  - intros msg. unfold run_search_and_build_pdf.
    pose proof (truthy_env_present c) as Hcred. unfold credentials_absent in *.
    destruct (truthy_env (RAPIDAPI_KEY c)) eqn:Ek;
      destruct (truthy_env (RAPIDAPI_HOST c)) eqn:Eh; cbn [negb orb];
      try (split; [intros [= <-]; left; auto | intros [[_ ->] | [[N _] | [N _]]];
           [reflexivity | exfalso; apply N; auto | exfalso; apply N; auto]]).
    assert (Hp : ~ (true = false \/ true = false)) by (intros [|]; discriminate).
    destruct (http_get w (the_request c)) as [r|].
    2:{ split; [discriminate|].
        intros [[[|] _] | [(_ & r & Hr & _) | (_ & r & j & Hr & _)]]; discriminate. }
    destruct (status_code r =? 200) eqn:Es; cbn [negb].
    2:{ apply Z.eqb_neq in Es. split.
        - intros [= <-]. right; left. split; [exact Hp|]. exists r. auto.
        - intros [[[|] _] | [(_ & r' & [= <-] & _ & ->) | (_ & r' & j & [= <-] & E & _)]];
            try discriminate; [reflexivity | congruence]. }
    apply Z.eqb_eq in Es.
    destruct (body r) as [j|] eqn:Eb.
    2:{ split; [discriminate|].
        intros [[[|] _] | [(_ & r' & [= <-] & N & _) | (_ & r' & j & [= <-] & _ & E & _)]];
          try discriminate; congruence. }
    destruct (no_listings (find_listings_container j)) eqn:En.
    { split.
      - intros [= <-]. right; right. split; [exact Hp|]. exists r, j. auto.
      - intros [[[|] _] | [(_ & r' & [= <-] & N & _) | (_ & r' & j' & _ & _ & _ & _ & ->)]];
          try discriminate; [congruence | reflexivity]. }
    split.
    + destruct (enrich_loop_spec P w (MAX_PRICE c)
                  (match find_listings_container j with Some l => l | None => [] end)
                  (0%nat, 0%nat) []) as (props & io & Hl & _).
      rewrite Hl. cbn [bind fst app]. intros H.
      apply make_pdf_exception in H. discriminate.
    + intros [[[|] _] | [(_ & r' & [= <-] & N & _) | (_ & r' & j' & [= <-] & _ & E & E' & _)]];
        try discriminate; congruence.
  - intros r j Hc Hr Hs Hb Hn.
    apply truthy_env_present in Hc. destruct Hc as [Hk Hh].
    unfold run_search_and_build_pdf. rewrite Hk, Hh, Hr, Hs, Hb, Hn. cbn [negb orb Z.eqb].
    destruct (find_listings_container j) as [listings|] eqn:Ef; [|discriminate].
    destruct (enrich_loop_spec P w (MAX_PRICE c) listings (0%nat, 0%nat) [])
      as (props & io & Hl & Hf).
    cbn [app] in Hl. exists listings, props, io. repeat apply conj; auto.
    rewrite Hl. reflexivity.
Qed.

Lemma run_outcome_witness :
  run_search_and_build_pdf Demo.platform Demo.config
    (Demo.world (JInt 7) None) = Raise (SystemExit msg_container) /\
  exists props io,
    enrich_loop Demo.platform
      (Demo.world (Demo.document [Demo.listing_with_coordinates]) None) 500000
      [Demo.listing_with_coordinates] (0%nat, 0%nat) [] = Ok (props, io) /\
    List.length props = 1%nat.
Proof.
  split.
  - apply (run_outcome Demo.platform Demo.config (Demo.world (JInt 7) None)).
    right; right. split.
    + intros [H | H]; vm_compute in H; discriminate.
    + eexists _, _. repeat split; reflexivity.
  - destruct (run_outcome Demo.platform Demo.config
                (Demo.world (Demo.document [Demo.listing_with_coordinates]) None))
      as [_ H].
    destruct (H {| status_code := 200;
                   body := Some (Demo.document [Demo.listing_with_coordinates]) |}
                (Demo.document [Demo.listing_with_coordinates]))
      as (listings & props & io & Hf & Hl & Ht & _);
      try reflexivity.
    + intros [E | E]; vm_compute in E; discriminate.
    + injection Hf as <-. exists props, io. split; [exact Hl|].
      symmetry. exact (Forall2_length Ht).
Defined.

(** C1 as stated fails: with credentials set and a 200 answer in which the
    locator finds the container under "properties", the run still ends with
    the diagnostic, because the container is empty. *)
Lemma empty_container_ends_the_run :
  ~ credentials_absent Demo.config /\
  http_get (Demo.world (Demo.document []) None) (the_request Demo.config)
  = Some {| status_code := 200; body := Some (Demo.document []) |} /\
  find_listings_container (Demo.document []) = Some [] /\
  run_search_and_build_pdf Demo.platform Demo.config (Demo.world (Demo.document []) None)
  = Raise (SystemExit msg_container).
Proof.
  repeat apply conj; try reflexivity.
  intros [H | H]; vm_compute in H; discriminate.
Qed.

(** *** Distances *)

Lemma math_1_ok g x r : math_1 g x = Ok r -> r = g x.
Proof.
  unfold math_1.
  destruct (is_nan (g x) && negb (is_nan x)); [discriminate|].
  destruct (is_infinity (g x) && is_finite x); [discriminate|].
  intros [= <-]. reflexivity.
Qed.

(** The distance is the diameter [6371.0 * 2] times the arc sine of the
    square root of the haversine sum. *)
Lemma haversine_km_radius P lat1 lon1 lat2 lon2 r :
  haversine_km P lat1 lon1 lat2 lon2 = Ok r ->
  exists s1 s2 a,
    float_pow2 P (c_sin P (radians (lat2 - lat1) / 2)) = Ok s1 /\
    float_pow2 P (c_sin P (radians (lon2 - lon1) / 2)) = Ok s2 /\
    a = (s1 + c_cos P (radians lat1) * c_cos P (radians lat2) * s2)%float /\
    r = (6371.0 * 2 * c_asin P (PrimFloat.sqrt a))%float.
Proof.
  unfold haversine_km. intros H.
  repeat match goal with
    | H : bind (math_1 ?g ?x) _ = Ok _ |- _ =>
        let E := fresh "E" in
        destruct (math_1 g x) eqn:E; cbn [bind] in H;
        [apply math_1_ok in E; subst | discriminate]
    | H : bind (float_pow2 ?P ?x) _ = Ok _ |- _ =>
        let E := fresh "E" in
        destruct (float_pow2 P x) eqn:E; cbn [bind] in H; [|discriminate]
    end.
  injection H as <-. eexists _, _, _. repeat split; eassumption.
Qed.

(** C2, as the script has it.  For an enriched listing: when a coordinate is
    null after geocoding, both distances are null; when both coordinates are
    true values that [float()] reads, and the haversine computation succeeds,
    each distance is the haversine distance (radius 6371.0) to the landmark,
    rounded to 2 places; when [float()] cannot read a coordinate, both
    distances are null. *)
Theorem distances_of_enriched :
  forall P w max_price io L p io',
    enrich P w max_price io L = Ok (p, io') ->
    (lat (raw p) = JNull \/ lon (raw p) = JNull ->
     dist_station_km p = None /\ dist_park_km p = None) /\
    (truthy (lat (raw p)) = true -> truthy (lon (raw p)) = true ->
     forall x y,
       py_float P (lat (raw p)) = Ok x -> py_float P (lon (raw p)) = Ok y ->
       forall d1 d2,
         haversine_km P x y (fst STATION_COORDS) (snd STATION_COORDS) = Ok d1 ->
         haversine_km P x y (fst PARK_COORDS) (snd PARK_COORDS) = Ok d2 ->
         dist_station_km p = Some (py_round2 P d1) /\
         dist_park_km p = Some (py_round2 P d2)) /\
    ((exists e, py_float P (lat (raw p)) = Raise e) \/
     (exists e, py_float P (lon (raw p)) = Raise e) ->
     dist_station_km p = None /\ dist_park_km p = None).
Proof.
  intros P w max_price io L p io' H.
  destruct (enrich_spec P w max_price io L) as (p0 & io0 & H0 & _ & _ & _ & Hp).
  rewrite H in H0. injection H0 as <- <-.
  pose proof (f_equal dist_station_km Hp) as Hs.
  pose proof (f_equal dist_park_km Hp) as Hk.
  cbn [prop_of dist_station_km dist_park_km] in Hs, Hk.
  rewrite Hs, Hk. clear Hs Hk Hp H. generalize (raw p). intros i.
  unfold distances, rounded_distance. repeat apply conj.
  - intros [E | E]; rewrite E; cbn [truthy andb]; try rewrite andb_false_r; auto.
  - intros Tx Ty x y Ex Ey d1 d2 E1 E2.
    rewrite Tx, Ty, Ex, Ey. cbn [andb bind]. rewrite E1, E2. cbn [bind fst snd].
    split; reflexivity.
  - intros [[e E] | [e E]]; destruct (truthy (lat i) && truthy (lon i)); auto.
    + rewrite E. auto.
    + destruct (py_float P (lat i)); cbn [bind]; [rewrite E|]; auto.
Qed.

Lemma distances_of_enriched_witness :
  exists p io d1 d2,
    enrich Demo.platform (Demo.world JNull None) 500000 (0%nat, 0%nat)
      Demo.listing_with_coordinates = Ok (p, io) /\
    haversine_km Demo.platform (-33.81) 151.01 (fst STATION_COORDS) (snd STATION_COORDS)
    = Ok d1 /\
    haversine_km Demo.platform (-33.81) 151.01 (fst PARK_COORDS) (snd PARK_COORDS)
    = Ok d2 /\
    dist_station_km p = Some (Demo.round2 d1) /\
    dist_park_km p = Some (Demo.round2 d2).
Proof.
  eexists _, _, _, _.
  split; [vm_compute; reflexivity|].
  split; [vm_compute; reflexivity|].
  split; [vm_compute; reflexivity|].
  match goal with
  | |- dist_station_km ?p = _ /\ _ =>
      destruct (distances_of_enriched Demo.platform (Demo.world JNull None) 500000
                  (0%nat, 0%nat) Demo.listing_with_coordinates p (0%nat, 0%nat))
        as (_ & Hd & _)
  end.
  - vm_compute. reflexivity.
  - edestruct (Hd eq_refl eq_refl (-33.81)%float (151.01)%float) as (H1 & H2);
      [vm_compute; reflexivity .. |].
    split; [exact H1 | exact H2].
Defined.

(** C2 as stated fails: coordinates that are present but are not numbers
    leave both distances null. *)
Lemma unreadable_coordinates_give_no_distance :
  exists p io,
    enrich Demo.platform (Demo.world JNull None) 500000 (0%nat, 0%nat)
      Demo.listing_without_numbers = Ok (p, io) /\
    lat (raw p) = JStr "n/a" /\ lon (raw p) = JStr "n/a" /\
    is_none (lat (raw p)) = false /\ is_none (lon (raw p)) = false /\
    dist_station_km p = None /\ dist_park_km p = None.
Proof.
  eexists _, _. repeat split.
Qed.

(** *** A NaN coordinate *)








(** ** Examples *)

Example km_to_walk_minutes_one : km_to_walk_minutes 1 = Ok 12.
Proof. reflexivity. Qed.

Example km_to_walk_minutes_zero : km_to_walk_minutes 0 = Ok 0.
Proof. reflexivity. Qed.

Example haversine_km_same_point :
  haversine_km Demo.platform (fst STATION_COORDS) (snd STATION_COORDS)
    (fst STATION_COORDS) (snd STATION_COORDS) = Ok 0%float.
Proof. vm_compute. reflexivity. Qed.

Example haversine_km_station_park :
  exists d,
    haversine_km Demo.platform (fst STATION_COORDS) (snd STATION_COORDS)
      (fst PARK_COORDS) (snd PARK_COORDS) = Ok d /\
    (0.38 <? d)%float = true /\ (d <? 0.39)%float = true.
Proof. eexists. run_first. run_first. vm_compute. reflexivity. Qed.

Example extract_field_beds :
  extract_field (JDict [("beds", JStr "2")]) = Ok (with_beds (Some 2) blank) /\
  extract_field (JDict [("beds", JStr "abc")]) = Ok blank /\
  extract_field (JDict []) = Ok blank.
Proof. run_first. run_first. vm_compute. reflexivity. Qed.

(** A listing without coordinates is geocoded by its address: one lookup,
    one second of sleep, and float coordinates. *)
Example enrich_geocodes :
  exists p,
    enrich Demo.platform
      (Demo.world JNull (Some (JList [JDict [("lat", JStr "-33.8"); ("lon", JStr "151.0")]])))
      500000 (0%nat, 0%nat) (JDict [("address", JStr "2 Church St")])
    = Ok (p, (1%nat, 1%nat)) /\
    lat (raw p) = JFloat (-33.8) /\ lon (raw p) = JFloat 151.0 /\
    dist_station_km p = Some 2.01%float.
Proof. eexists. run_first. run_first. run_first. vm_compute. reflexivity. Qed.

(** A lookup that answers a latitude and no longitude leaves the latitude
    set. *)
Example enrich_geocodes_half :
  exists p,
    enrich Demo.platform
      (Demo.world JNull (Some (JList [JDict [("lat", JStr "-33.8")]])))
      500000 (0%nat, 0%nat) (JDict [("address", JStr "2 Church St")])
    = Ok (p, (1%nat, 0%nat)) /\
    lat (raw p) = JFloat (-33.8) /\ lon (raw p) = JNull /\
    dist_station_km p = None.
Proof. eexists. run_first. run_first. run_first. vm_compute. reflexivity. Qed.

(** Two listings, the second without price and coordinates: two blocks are
    drawn, in order, with the fallback texts; closing the document then
    fails on the dash. *)
Example two_listing_report :
  exists b1 b2,
    render_block (prop_of Demo.platform 500000 (normalised Demo.listing_with_coordinates))
    = Ok b1 /\
    render_block (prop_of Demo.platform 500000 (normalised (JDict [("beds", JStr "abc")])))
    = Ok b2 /\
    render_loop (pdf_header 500000)
      [prop_of Demo.platform 500000 (normalised Demo.listing_with_coordinates);
       prop_of Demo.platform 500000 (normalised (JDict [("beds", JStr "abc")]))]
    = Ok (pdf_header 500000 ++ b1 ++ b2)%list /\
    nth_error b2 1
    = Some (multi_cell 0 7 [Val (JStr "Property"); Lit " — "; Lit "Price unknown"]) /\
    nth_error b2 3 = Some (summary_line (JStr "?") (JStr "?") (JStr "?")) /\
    run_search_and_build_pdf Demo.platform Demo.config
      (Demo.world
         (Demo.document [Demo.listing_with_coordinates; JDict [("beds", JStr "abc")]])
         None)
    = Raise UnicodeEncodeError.
Proof.
  eexists _, _. run_first. run_first. run_first. run_first. run_first.
  vm_compute. reflexivity.
Qed.

(** Digits of any script are read, by [\d] and by [int()]; the separators
    U+001C to U+001F are no white space for [int()]; a text of more than
    4300 digits is refused. *)
Example extract_field_unicode_digits :
  extract_field (JDict [("price", JStr "٤٥٠"); ("beds", JStr "２");
                        ("baths", JStr " 1_0 "); ("cars", JStr "१२")])
  = Ok (with_price_raw (JStr "٤٥٠")
          (with_price (Some 450)
             (with_beds (Some 2) (with_baths (Some 10) (with_cars (Some 12) blank))))).
Proof. vm_compute. reflexivity. Qed.

Example int_of_separator :
  py_int (JStr (String (ascii_of_N 28) "2")) = Raise ValueError /\
  py_int (JStr (String (ascii_of_N 9) "2")) = Ok 2 /\
  py_int (JStr "-7") = Ok (-7) /\
  py_int (JStr "1__0") = Raise ValueError.
Proof. repeat split; vm_compute; reflexivity. Qed.

Example int_max_digits :
  (exists z, py_int (JStr (ones 4300)) = Ok z) /\
  py_int (JStr (ones 4301)) = Raise ValueError /\
  (exists i, extract_field (JDict [("price", JStr (ones 4301))]) = Ok i /\
             price i = None).
Proof.
  split; [|split].
  - destruct (py_int (JStr (ones 4300))) as [z|e] eqn:E; [eauto|].
    vm_compute in E. discriminate.
  - vm_compute. reflexivity.
  - eexists. split; [apply extract_field_spec|]. vm_compute. reflexivity.
Qed.

(** ** Further properties *)

(** *** try_get *)

Lemma try_get_not_dict o keys : is_dict o = false -> try_get o keys = JNull.
Proof.
  intros H. induction keys as [|k keys IH]; [reflexivity|].
  destruct o; try discriminate; exact IH.
Qed.

(** X1.  The first key of the list that the record has decides the result,
    whatever its value and whatever later keys hold; with no key of the list
    the result is null, as it is for anything that is not a record. *)
Theorem try_get_first_match :
  forall d,
    (forall pre k post v,
       (forall k', In k' pre -> dict_get d k' = None) ->
       dict_get d k = Some v ->
       try_get (JDict d) (pre ++ k :: post) = v) /\
    (forall keys,
       (forall k, In k keys -> dict_get d k = None) ->
       try_get (JDict d) keys = JNull) /\
    (forall o keys, is_dict o = false -> try_get o keys = JNull).
Proof.
  intros d. repeat apply conj.
  - intros pre. induction pre as [|a pre IH]; intros k post v Hpre Hk; cbn.
    + rewrite Hk. reflexivity.
    + rewrite (Hpre a (or_introl eq_refl)).
      apply IH; [|exact Hk]. intros k' Hin. apply Hpre. now right.
  - intros keys. induction keys as [|a keys IH]; intros Hn; cbn; [reflexivity|].
    rewrite (Hn a (or_introl eq_refl)). apply IH. intros k Hin. apply Hn. now right.
  - intros o keys. apply try_get_not_dict.
Qed.

Lemma try_get_first_match_witness :
  try_get (JDict [("beds", JNull); ("bed", JInt 3)]) (["bedrooms"] ++ "beds" :: ["bed"])
  = JNull /\
  try_get (JDict [("rooms", JInt 3)]) beds_keys = JNull.
Proof.
  destruct (try_get_first_match [("beds", JNull); ("bed", JInt 3)]) as (H1 & _ & _).
  destruct (try_get_first_match [("rooms", JInt 3)]) as (_ & H2 & _).
  split.
  - apply H1; [|reflexivity]. intros k' [<- | []]. reflexivity.
  - apply H2. intros k [<- | [<- | [<- | []]]]; reflexivity.
Defined.

(** *** Geocoding *)

Lemma geo_field_exception P g k e : geo_field P g k = Raise e -> is_Exception e = true.
Proof.
  unfold geo_field. intros H.
  apply bind_exception in H. destruct H as [H | (x & _ & H)].
  - destruct g as [| | | |s|l|]; cbn in H; try (injection H as <-; reflexivity).
    + destruct s; [injection H as <-; reflexivity | discriminate].
    + destruct l; [injection H as <-; reflexivity | discriminate].
  - apply bind_exception in H. destruct H as [H | (v & _ & H)].
    + unfold getitem in H. destruct x; try (injection H as <-; reflexivity).
      destruct (dict_get d k); [discriminate | injection H as <-; reflexivity].
    + eapply py_float_exception. exact H.
Qed.

(** The geocoding block never raises, and the frame it leaves. *)
Lemma geocode_block_geocoded P w f :
  geocode_block P w f = (Ok tt, geocoded P w f).
Proof.
  unfold geocode_block, geocoded, mbind, get, when, try_pass, request_geocode, lift,
    modify, sleep, ret, geo_field, count_call, count_sleep.
  destruct (is_none (lat (f_item f)) || is_none (lon (f_item f))); [|reflexivity].
  destruct (truthy (address (f_item f))); [|reflexivity]. cbn [andb].
  destruct (geocode w (f_calls f) (address (f_item f))) as [g|]; [|reflexivity].
  destruct (truthy g); [|reflexivity].
  pose proof (geo_field_exception P g "lat") as Hlat.
  pose proof (geo_field_exception P g "lon") as Hlon.
  unfold geo_field in Hlat, Hlon.
  destruct (subscript0 g) as [g0|e0]; cbn [bind] in *.
  2:{ rewrite (Hlat e0 eq_refl). reflexivity. }
  destruct (getitem g0 "lat") as [v|e1]; cbn [bind] in *.
  2:{ rewrite (Hlat e1 eq_refl). reflexivity. }
  destruct (py_float P v) as [x|e2]; cbn [bind] in *.
  2:{ rewrite (Hlat e2 eq_refl). reflexivity. }
  destruct (getitem g0 "lon") as [v'|e3]; cbn [bind] in *.
  2:{ rewrite (Hlon e3 eq_refl). reflexivity. }
  destruct (py_float P v') as [y|e4]; cbn [bind] in *.
  2:{ rewrite (Hlon e4 eq_refl). reflexivity. }
  reflexivity.
Qed.

(** One iteration, through the frame that geocoding leaves. *)
Lemma enrich_geocoded P w max_price io L :
  enrich P w max_price io L =
  Ok (prop_of P max_price (f_item (geocoded P w (frame0 (normalised L) io))),
      (f_calls (geocoded P w (frame0 (normalised L) io)),
       f_slept (geocoded P w (frame0 (normalised L) io)))).
Proof.
  unfold enrich. rewrite extract_field_spec. cbn [bind].
  unfold mbind at 1. fold (frame0 (normalised L) io).
  rewrite geocode_block_geocoded, distance_block_spec.
  cbn [f_item f_dist_station_km f_dist_park_km f_calls f_slept].
  unfold prop_of, pros_of, cons_of.
  destruct (pros_cons max_price (f_item (geocoded P w (frame0 (normalised L) io)))).
  reflexivity.
Qed.

Lemma extract_field_normalised L i : extract_field L = Ok i -> i = normalised L.
Proof. rewrite extract_field_spec. intros [= <-]. reflexivity. Qed.

(** X6.  A listing that has both coordinates, or that has no address, is never
    looked up: the world is not consulted, nothing is slept, and the listing
    is left as the normaliser made it. *)
Theorem no_lookup_without_need :
  forall P w w' max_price io L i,
    extract_field L = Ok i ->
    (is_none (lat i) = false /\ is_none (lon i) = false) \/ truthy (address i) = false ->
    exists p,
      enrich P w max_price io L = Ok (p, io) /\
      enrich P w' max_price io L = Ok (p, io) /\
      raw p = i.
Proof.
  intros P w w' max_price io L i Hi Hc.
  apply extract_field_normalised in Hi. subst i.
  assert (Hg : forall w0, geocoded P w0 (frame0 (normalised L) io)
                          = frame0 (normalised L) io).
  { intros w0. unfold geocoded. cbn [frame0 f_item].
    destruct Hc as [[H1 H2] | H]; [rewrite H1, H2 | rewrite H, andb_false_r]; reflexivity. }
  exists (prop_of P max_price (normalised L)).
  rewrite !enrich_geocoded, !Hg. destruct io. repeat split.
Qed.

Lemma no_lookup_without_need_witness :
  exists p,
    enrich Demo.platform (Demo.world JNull None) 500000 (3%nat, 1%nat)
      (JDict [("address", JStr "2 Church St"); ("lat", JInt 0); ("lon", JStr "x")])
    = Ok (p, (3%nat, 1%nat)) /\
    enrich Demo.platform (Demo.world JNull (Some (JList []))) 500000 (3%nat, 1%nat)
      (JDict [("address", JStr "2 Church St"); ("lat", JInt 0); ("lon", JStr "x")])
    = Ok (p, (3%nat, 1%nat)).
Proof.
  destruct (no_lookup_without_need Demo.platform (Demo.world JNull None)
              (Demo.world JNull (Some (JList []))) 500000 (3%nat, 1%nat)
              (JDict [("address", JStr "2 Church St"); ("lat", JInt 0); ("lon", JStr "x")])
              _ eq_refl) as (p & H1 & H2 & _).
  - left. split; reflexivity.
  - exists p. split; assumption.
Defined.

Lemma distances_null_coordinate P i :
  is_none (lat i) || is_none (lon i) = true -> distances P i = (None, None).
Proof.
  unfold distances. intros H. apply orb_prop in H.
  destruct H as [H | H]; [destruct (lat i) | destruct (lon i)]; try discriminate;
    cbn [truthy andb]; rewrite ?andb_false_r; reflexivity.
Qed.

(** X7.  A lookup that fails, or answers nothing usable for the latitude, costs
    one call and no sleep, and leaves the listing and its missing distances
    as they were. *)
Theorem failed_lookup_changes_nothing :
  forall P w max_price io L i,
    extract_field L = Ok i ->
    is_none (lat i) || is_none (lon i) = true ->
    truthy (address i) = true ->
    (geocode w (fst io) (address i) = None \/
     exists g, geocode w (fst io) (address i) = Some g /\
               (truthy g = false \/ exists e, geo_field P g "lat" = Raise e)) ->
    exists p,
      enrich P w max_price io L = Ok (p, (S (fst io), snd io)) /\
      raw p = i /\ dist_station_km p = None /\ dist_park_km p = None.
Proof.
  intros P w max_price io L i Hi Hn Ha Hg.
  apply extract_field_normalised in Hi. subst i.
  assert (E : geocoded P w (frame0 (normalised L) io)
              = count_call (frame0 (normalised L) io)).
  { unfold geocoded. cbn [frame0 f_item f_calls]. rewrite Hn, Ha. cbn [andb].
    destruct Hg as [-> | (g & -> & [Hf | [e He]])]; [reflexivity | |].
    - rewrite Hf. reflexivity.
    - rewrite He. destruct (truthy g); reflexivity. }
  exists (prop_of P max_price (normalised L)).
  rewrite enrich_geocoded, E. cbn [count_call frame0 f_item f_calls f_slept].
  repeat split; cbn [prop_of dist_station_km dist_park_km];
    rewrite (distances_null_coordinate P _ Hn); reflexivity.
Qed.

Lemma failed_lookup_changes_nothing_witness :
  exists p,
    enrich Demo.platform (Demo.world JNull (Some (JList []))) 500000 (0%nat, 0%nat)
      (JDict [("address", JStr "2 Church St")]) = Ok (p, (1%nat, 0%nat)) /\
    dist_station_km p = None.
Proof.
  destruct (failed_lookup_changes_nothing Demo.platform
              (Demo.world JNull (Some (JList []))) 500000 (0%nat, 0%nat)
              (JDict [("address", JStr "2 Church St")]) _ eq_refl)
    as (p & H1 & _ & H2 & _).
  - reflexivity.
  - reflexivity.
  - right. exists (JList []). split; [reflexivity | left; reflexivity].
  - exists p. split; assumption.
Defined.

(** X8.  A lookup that answers a latitude and no usable longitude sets the
    latitude all the same, leaves the longitude, and does not sleep. *)
Theorem half_lookup_sets_latitude :
  forall P w max_price io L i g x e,
    extract_field L = Ok i ->
    is_none (lat i) || is_none (lon i) = true ->
    truthy (address i) = true ->
    geocode w (fst io) (address i) = Some g ->
    truthy g = true ->
    geo_field P g "lat" = Ok x ->
    geo_field P g "lon" = Raise e ->
    exists p,
      enrich P w max_price io L = Ok (p, (S (fst io), snd io)) /\
      raw p = set_lat (JFloat x) i.
Proof.
  intros P w max_price io L i g x e Hi Hn Ha Hg Ht Hx He.
  apply extract_field_normalised in Hi. subst i.
  assert (E : geocoded P w (frame0 (normalised L) io)
              = set_item (set_lat (JFloat x)) (count_call (frame0 (normalised L) io))).
  { unfold geocoded. cbn [frame0 f_item f_calls]. rewrite Hn, Ha, Hg, Ht, Hx, He.
    reflexivity. }
  eexists. rewrite enrich_geocoded, E. split; reflexivity.
Qed.

Lemma half_lookup_sets_latitude_witness :
  exists p,
    enrich Demo.platform
      (Demo.world JNull (Some (JList [JDict [("lat", JStr "-33.8")]])))
      500000 (0%nat, 0%nat) (JDict [("address", JStr "2 Church St")])
    = Ok (p, (1%nat, 0%nat)) /\
    lat (raw p) = JFloat (-33.8) /\ lon (raw p) = JNull.
Proof.
  destruct (half_lookup_sets_latitude Demo.platform
              (Demo.world JNull (Some (JList [JDict [("lat", JStr "-33.8")]])))
              500000 (0%nat, 0%nat) (JDict [("address", JStr "2 Church St")])
              _ (JList [JDict [("lat", JStr "-33.8")]]) (-33.8)%float KeyError eq_refl)
    as (p & H1 & H2); try (vm_compute; reflexivity).
  exists p. split; [exact H1|]. rewrite H2. split; reflexivity.
Defined.

(** X9.  A lookup that answers both coordinates replaces both by floats, whatever
    the listing held, costs one call and is followed by one second of sleep. *)
Theorem full_lookup_sets_coordinates :
  forall P w max_price io L i g x y,
    extract_field L = Ok i ->
    is_none (lat i) || is_none (lon i) = true ->
    truthy (address i) = true ->
    geocode w (fst io) (address i) = Some g ->
    truthy g = true ->
    geo_field P g "lat" = Ok x ->
    geo_field P g "lon" = Ok y ->
    exists p,
      enrich P w max_price io L = Ok (p, (S (fst io), S (snd io))) /\
      raw p = set_lon (JFloat y) (set_lat (JFloat x) i) /\
      dist_station_km p = fst (distances P (set_lon (JFloat y) (set_lat (JFloat x) i))).
Proof.
  intros P w max_price io L i g x y Hi Hn Ha Hg Ht Hx Hy.
  apply extract_field_normalised in Hi. subst i.
  assert (E : geocoded P w (frame0 (normalised L) io)
              = count_sleep
                  (set_item (set_lon (JFloat y))
                     (set_item (set_lat (JFloat x))
                        (count_call (frame0 (normalised L) io))))).
  { unfold geocoded. cbn [frame0 f_item f_calls]. rewrite Hn, Ha, Hg, Ht, Hx, Hy.
    reflexivity. }
  eexists. rewrite enrich_geocoded, E. repeat split.
Qed.

Lemma full_lookup_sets_coordinates_witness :
  exists p,
    enrich Demo.platform
      (Demo.world JNull (Some (JList [JDict [("lat", JStr "-33.8"); ("lon", JInt 151)]])))
      500000 (0%nat, 0%nat)
      (JDict [("address", JStr "2 Church St"); ("lat", JStr "somewhere")])
    = Ok (p, (1%nat, 1%nat)) /\
    lat (raw p) = JFloat (-33.8) /\ lon (raw p) = JFloat 151.
Proof.
  destruct (full_lookup_sets_coordinates Demo.platform
              (Demo.world JNull
                 (Some (JList [JDict [("lat", JStr "-33.8"); ("lon", JInt 151)]])))
              500000 (0%nat, 0%nat)
              (JDict [("address", JStr "2 Church St"); ("lat", JStr "somewhere")])
              _ (JList [JDict [("lat", JStr "-33.8"); ("lon", JInt 151)]])
              (-33.8)%float 151%float eq_refl)
    as (p & H1 & H2 & _); try (vm_compute; reflexivity).
  exists p. split; [exact H1|]. rewrite H2. split; reflexivity.
Defined.

(** *** The loop over the listings *)

Lemma geocoded_counters P w f :
  (f_calls f <= f_calls (geocoded P w f) <= S (f_calls f))%nat /\
  (f_slept f <= f_slept (geocoded P w f))%nat /\
  (f_slept (geocoded P w f) - f_slept f
   <= f_calls (geocoded P w f) - f_calls f)%nat.
Proof.
  unfold geocoded.
  destruct ((is_none (lat (f_item f)) || is_none (lon (f_item f)))
            && truthy (address (f_item f))); [|lia].
  destruct (geocode w (f_calls f) (address (f_item f))) as [g|];
    [|cbn [count_call f_calls f_slept]; lia].
  destruct (truthy g); [|cbn [count_call f_calls f_slept]; lia].
  destruct (geo_field P g "lat"); [|cbn [count_call f_calls f_slept]; lia].
  destruct (geo_field P g "lon");
    cbn [count_call count_sleep set_item f_calls f_slept]; lia.
Qed.

(** X10.  Over a whole run of the loop there is at most one lookup per listing,
    and never more seconds slept than lookups made. *)
Theorem lookups_bounded_by_listings :
  forall P w max_price listings io props0 props io',
    enrich_loop P w max_price listings io props0 = Ok (props, io') ->
    (fst io <= fst io' <= fst io + List.length listings)%nat /\
    (snd io <= snd io')%nat /\
    (snd io' - snd io <= fst io' - fst io)%nat.
Proof.
  intros P w max_price listings.
  induction listings as [|L rest IH]; intros io props0 props io'; cbn [enrich_loop].
  - intros [= _ <-]. cbn. lia.
  - rewrite enrich_geocoded. cbn [bind fst snd]. intros H.
    apply IH in H. cbn [fst snd] in H.
    pose proof (geocoded_counters P w (frame0 (normalised L) io)) as G.
    cbn [frame0 f_calls f_slept] in G. cbn [List.length]. lia.
Qed.

Lemma lookups_bounded_by_listings_witness :
  exists props io',
    enrich_loop Demo.platform
      (Demo.world JNull (Some (JList [JDict [("lat", JStr "-33.8"); ("lon", JInt 151)]])))
      500000
      [JDict [("address", JStr "2 Church St")]; Demo.listing_with_coordinates;
       JDict [("address", JStr "5 Smith St")]]
      (0%nat, 0%nat) [] = Ok (props, io') /\
    (fst io' <= 3)%nat /\ (snd io' <= fst io')%nat.
Proof.
  destruct (enrich_loop Demo.platform
              (Demo.world JNull
                 (Some (JList [JDict [("lat", JStr "-33.8"); ("lon", JInt 151)]])))
              500000
              [JDict [("address", JStr "2 Church St")]; Demo.listing_with_coordinates;
               JDict [("address", JStr "5 Smith St")]]
              (0%nat, 0%nat) []) as [[props io']|e] eqn:E.
  - exists props, io'. split; [reflexivity|].
    destruct (lookups_bounded_by_listings _ _ _ _ _ _ _ _ E) as (H1 & H2 & H3).
    cbn [fst snd List.length] in *. lia.
  - vm_compute in E. discriminate.
Defined.

(** X11.  The loop never raises and never drops, merges or reorders: it appends
    one entry per raw listing, in order, each the normalised listing with at
    most its coordinates filled in, and keeps the entries it was given. *)
Theorem enrichment_keeps_every_listing :
  forall P w max_price listings io props0,
  exists props io',
    enrich_loop P w max_price listings io props0 = Ok ((props0 ++ props)%list, io') /\
    List.length props = List.length listings /\
    Forall2 (traces_back P max_price) listings props.
Proof.
  intros P w max_price listings io props0.
  destruct (enrich_loop_spec P w max_price listings io props0) as (props & io' & H & F).
  exists props, io'. repeat split; auto. symmetry. exact (Forall2_length F).
Qed.

Lemma pros_cons_same max_price a b :
  same_listing a b -> pros_cons max_price a = pros_cons max_price b.
Proof.
  intros (_ & Hp & Hb & Ht & Hc & _). unfold pros_cons. rewrite Hp, Hb, Ht, Hc.
  reflexivity.
Qed.

(** X13.  Geocoding never changes the labels: the pros and cons of an enriched
    listing are those of the record the normaliser made. *)
Theorem labels_ignore_geocoding :
  forall P w max_price io L,
  exists i p io',
    extract_field L = Ok i /\
    enrich P w max_price io L = Ok (p, io') /\
    pros p = fst (pros_cons max_price i) /\
    cons p = snd (pros_cons max_price i).
Proof.
  intros P w max_price io L.
  destruct (enrich_spec P w max_price io L) as (p & io' & H & Hs & _ & _ & Hp).
  exists (normalised L), p, io'. split; [apply extract_field_spec|]. split; [exact H|].
  pose proof (f_equal pros Hp) as H1. pose proof (f_equal cons Hp) as H2.
  cbn [prop_of pros cons] in H1, H2. unfold pros_of, cons_of in H1, H2.
  rewrite (pros_cons_same max_price _ _ Hs) in H1, H2. split; assumption.
Qed.

(** X14.  The distance to the park is present only with the distance to the
    station, and a distance is present only when both coordinates are true
    values that [float()] reads. *)
Theorem distances_need_coordinates :
  forall P w max_price io L p io',
    enrich P w max_price io L = Ok (p, io') ->
    (dist_park_km p <> None -> dist_station_km p <> None) /\
    (dist_station_km p <> None ->
     truthy (lat (raw p)) = true /\ truthy (lon (raw p)) = true /\
     exists x y, py_float P (lat (raw p)) = Ok x /\ py_float P (lon (raw p)) = Ok y).
Proof.
  intros P w max_price io L p io' H.
  rewrite enrich_geocoded in H. injection H as <- _.
  cbn [prop_of dist_station_km dist_park_km raw].
  generalize (f_item (geocoded P w (frame0 (normalised L) io))). intros i.
  unfold distances, rounded_distance.
  destruct (truthy (lat i)), (truthy (lon i)); cbn [andb fst snd];
    try (split; intros H; congruence).
  destruct (py_float P (lat i)) as [x|e]; cbn [bind fst snd];
    [|split; intros H; congruence].
  destruct (py_float P (lon i)) as [y|e]; cbn [bind fst snd];
    [|split; intros H; congruence].
  destruct (bind (haversine_km P x y (fst STATION_COORDS) (snd STATION_COORDS)) _);
    cbn [fst snd]; split; intros H; try congruence.
  repeat split; eauto.
Qed.

Lemma distances_need_coordinates_witness :
  exists p io',
    enrich Demo.platform (Demo.world JNull None) 500000 (0%nat, 0%nat)
      Demo.listing_with_coordinates = Ok (p, io') /\
    dist_station_km p <> None /\
    truthy (lat (raw p)) = true /\ truthy (lon (raw p)) = true.
Proof.
  eexists _, _. split; [vm_compute; reflexivity|].
  match goal with
  | |- dist_station_km ?p <> None /\ _ =>
      destruct (distances_need_coordinates Demo.platform (Demo.world JNull None) 500000
                  (0%nat, 0%nat) Demo.listing_with_coordinates p (0%nat, 0%nat))
        as (H1 & H2)
  end.
  - vm_compute. reflexivity.
  - assert (Hp : Some 0.85999999999999999%float <> None) by discriminate.
    pose proof (H1 Hp) as Hs. split; [exact Hs|].
    destruct (H2 Hs) as (Ha & Hb & _). split; assumption.
Defined.

(** X4.  A listing that is not a record is kept: every field is null, nothing is
    looked up, and its entry has no distance, no pro and the one con about
    parking. *)
Theorem non_record_listing_is_blank :
  forall P w max_price io L,
    is_dict L = false ->
    extract_field L = Ok blank /\
    enrich P w max_price io L
    = Ok ({| raw := blank; dist_station_km := None; dist_park_km := None;
             pros := []; cons := ["No dedicated parking listed"] |}, io).
Proof.
  intros P w max_price io L H.
  assert (E : normalised L = blank).
  { unfold normalised. rewrite !(try_get_not_dict L _ H). reflexivity. }
  split.
  - rewrite extract_field_spec, E. reflexivity.
  - rewrite enrich_geocoded, E. destruct io. reflexivity.
Qed.

Lemma non_record_listing_is_blank_witness :
  extract_field (JStr "sold") = Ok blank /\
  enrich Demo.platform (Demo.world JNull None) 500000 (0%nat, 0%nat) (JStr "sold")
  = Ok ({| raw := blank; dist_station_km := None; dist_park_km := None;
           pros := []; cons := ["No dedicated parking listed"] |}, (0%nat, 0%nat)).
Proof.
  apply (non_record_listing_is_blank Demo.platform (Demo.world JNull None) 500000
           (0%nat, 0%nat) (JStr "sold")).
  reflexivity.
Defined.

(** *** Normaliser *)

(** X2.  A value under an earlier key is never replaced by one under a later key:
    when "bedrooms" (resp. "price") holds something unreadable, the beds (resp.
    price) are null, whatever "beds", "bed" (resp. "price_display", ...)
    hold. *)
Theorem earlier_key_wins :
  forall d v,
    (dict_get d "bedrooms" = Some v -> int_unparsable v ->
     exists i, extract_field (JDict d) = Ok i /\ beds i = None) /\
    (dict_get d "price" = Some v -> price_unparsable v ->
     exists i, extract_field (JDict d) = Ok i /\ price i = None /\ price_raw i = v).
Proof.
  intros d v.
  split; intros Hk Hu; exists (normalised (JDict d));
    (split; [apply extract_field_spec|]).
  - assert (E : try_get (JDict d) beds_keys = v)
      by (unfold beds_keys; cbn [try_get]; rewrite Hk; reflexivity).
    unfold normalised. cbn [beds]. rewrite E. apply normal_int_unparsable. exact Hu.
  - assert (E : try_get (JDict d) price_keys = v)
      by (unfold price_keys; cbn [try_get]; rewrite Hk; reflexivity).
    unfold normalised. cbn [price price_raw]. rewrite E.
    split; [apply normal_price_unparsable; exact Hu | reflexivity].
Qed.

Lemma earlier_key_wins_witness :
  (exists i, extract_field (JDict [("beds", JInt 2); ("bedrooms", JStr "abc")]) = Ok i /\
             beds i = None) /\
  (exists i, extract_field (JDict [("price", JNull); ("price_display", JStr "$450,000")])
             = Ok i /\ price i = None /\ price_raw i = JNull).
Proof.
  split.
  - apply (earlier_key_wins [("beds", JInt 2); ("bedrooms", JStr "abc")] (JStr "abc"));
      [reflexivity|]. right; right. exists ValueError. reflexivity.
  - apply (earlier_key_wins [("price", JNull); ("price_display", JStr "$450,000")] JNull);
      reflexivity.
Defined.

Lemma decimal_value_bounds ds :
  forall acc, 0 <= acc -> acc <= decimal_value ds acc.
Proof.
  induction ds as [|c ds IH]; intros acc Ha; cbn [decimal_value]; [lia|].
  pose proof (digit_val_bounds c).
  specialize (IH (10 * acc + digit_val c)). lia.
Qed.

(** X3.  A price read from a text is never negative: a minus sign in the text is
    dropped with the other characters that are not digits. *)
Theorem text_price_not_negative :
  forall listing s i p,
    try_get listing price_keys = JStr s ->
    extract_field listing = Ok i ->
    price i = Some p ->
    0 <= p.
Proof.
  intros listing s i p Hs Hi Hp.
  apply extract_field_normalised in Hi. subst i.
  unfold normalised in Hp. cbn [price] in Hp. rewrite Hs, normal_price_text in Hp.
  destruct (_ || _); [discriminate|].
  injection Hp as <-. apply decimal_value_bounds. lia.
Qed.

Lemma text_price_not_negative_witness :
  exists i,
    extract_field (JDict [("price", JStr "-450,000")]) = Ok i /\
    price i = Some 450000 /\ 0 <= 450000.
Proof.
  eexists. split; [reflexivity|]. split; [reflexivity|].
  apply (text_price_not_negative (JDict [("price", JStr "-450,000")]) "-450,000"
           (normalised (JDict [("price", JStr "-450,000")])) 450000); reflexivity.
Defined.

(** *** Annotator *)

Lemma parking_rule_exact i x :
  In x (fst (parking_rule i) ++ snd (parking_rule i)) ->
  x = "Has 1+ car space"%string \/ x = "No dedicated parking listed"%string.
Proof.
  unfold parking_rule. split_ifs; cbn; intuition.
Qed.

Lemma price_rule_exact max_price i x :
  In x (fst (price_rule max_price i) ++ snd (price_rule max_price i)) ->
  x = "Good value under budget"%string \/ x = "Close to top of budget"%string.
Proof.
  unfold price_rule. split_ifs; cbn; intuition.
Qed.

Lemma in_pros_cons max_price i x :
  In x (pros_of max_price i ++ cons_of max_price i) <->
  In x (fst (parking_rule i) ++ snd (parking_rule i)) \/
  In x (fst (bed_bath_rule i) ++ snd (bed_bath_rule i)) \/
  In x (fst (price_rule max_price i) ++ snd (price_rule max_price i)).
Proof.
  unfold pros_of, cons_of. rewrite pros_cons_rules. cbn [fst snd].
  rewrite !in_app_iff. tauto.
Qed.

(** X15.  The bed and bath rule.  With two beds, two or more baths give the pro
    "2 beds + 2 baths"; baths that are null, zero or one give the con "Only 1
    bath for 2 beds".  Any other number of beds, beds unknown, or two beds
    with a negative number of baths, give neither label. *)
Theorem bed_bath_label :
  forall max_price i,
    (beds i = Some 2 -> (exists t, baths i = Some t /\ 2 <= t) ->
     In "2 beds + 2 baths"%string (pros_of max_price i)) /\
    (beds i = Some 2 -> (baths i = None \/ baths i = Some 0 \/ baths i = Some 1) ->
     In "Only 1 bath for 2 beds"%string (cons_of max_price i)) /\
    (beds i <> Some 2 \/ (exists t, baths i = Some t /\ t < 0) ->
     ~ In "2 beds + 2 baths"%string (pros_of max_price i ++ cons_of max_price i) /\
     ~ In "Only 1 bath for 2 beds"%string (pros_of max_price i ++ cons_of max_price i)).
Proof.
  intros max_price i.
  assert (Hother : forall x,
             (x = "2 beds + 2 baths"%string \/ x = "Only 1 bath for 2 beds"%string) ->
             In x (pros_of max_price i ++ cons_of max_price i) ->
             In x (fst (bed_bath_rule i) ++ snd (bed_bath_rule i))).
  { intros x Hx Hin. apply in_pros_cons in Hin. destruct Hin as [H | [H | H]].
    - apply parking_rule_exact in H. destruct Hx as [-> | ->], H as [H | H]; discriminate.
    - exact H.
    - apply price_rule_exact in H. destruct Hx as [-> | ->], H as [H | H]; discriminate. }
  repeat apply conj.
  - intros Hb (t & Ht & Hge). unfold pros_of. rewrite pros_cons_rules. cbn [fst].
    rewrite !in_app_iff. right; left.
    unfold bed_bath_rule, truthy_int. rewrite Hb, Ht.
    destruct (t =? 0) eqn:E0; destruct (t >=? 2) eqn:E2; zbool; try lia. cbn. auto.
  - intros Hb Ht. unfold cons_of. rewrite pros_cons_rules. cbn [snd].
    rewrite !in_app_iff. right; left.
    unfold bed_bath_rule, truthy_int. rewrite Hb.
    destruct Ht as [-> | [-> | ->]]; cbn; auto.
  - intros Hc.
    assert (Hnone : bed_bath_rule i = ([], [])).
    { unfold bed_bath_rule, truthy_int.
      destruct Hc as [Hb | (t & Ht & Hneg)].
      - destruct (beds i) as [b|]; [|reflexivity].
        destruct (b =? 2) eqn:E; [apply Z.eqb_eq in E; congruence | reflexivity].
      - rewrite Ht.
        destruct (t =? 0) eqn:E0; destruct (t >=? 2) eqn:E2; destruct (t =? 1) eqn:E1;
          zbool; try lia; cbn; rewrite ?andb_false_r; reflexivity. }
    split; intros Hin; apply Hother in Hin; auto; rewrite Hnone in Hin; destruct Hin.
Qed.

Lemma bed_bath_label_witness :
  In "2 beds + 2 baths"%string
    (pros_of 500000 (with_baths (Some 3) (with_beds (Some 2) blank))) /\
  In "Only 1 bath for 2 beds"%string (cons_of 500000 (with_beds (Some 2) blank)) /\
  ~ In "Only 1 bath for 2 beds"%string
      (pros_of 500000 (with_baths (Some (-1)) (with_beds (Some 2) blank))
       ++ cons_of 500000 (with_baths (Some (-1)) (with_beds (Some 2) blank))).
Proof.
  repeat apply conj.
  - apply (bed_bath_label 500000 (with_baths (Some 3) (with_beds (Some 2) blank)));
      [reflexivity|]. exists 3. split; [reflexivity | lia].
  - apply (bed_bath_label 500000 (with_beds (Some 2) blank)); [reflexivity|].
    left. reflexivity.
  - apply (bed_bath_label 500000 (with_baths (Some (-1)) (with_beds (Some 2) blank))).
    right. exists (-1). split; [reflexivity | lia].
Defined.

(** X16.  Every listing gets at least one label and at most three, and no label
    twice, so a block always has a pros line or a cons line. *)
Theorem label_counts :
  forall max_price i,
    (1 <= List.length (pros_of max_price i) + List.length (cons_of max_price i) <= 3)%nat /\
    NoDup (pros_of max_price i ++ cons_of max_price i).
Proof.
  intros max_price i. unfold pros_of, cons_of. rewrite pros_cons_rules. cbn [fst snd].
  unfold parking_rule, bed_bath_rule, price_rule.
  split_ifs; cbn; (repeat apply conj; [lia | lia |]);
    repeat (constructor; [cbn; intuition discriminate|]); constructor.
Qed.

(** *** Report renderer *)

Lemma int_or_truthy o : truthy (int_or o (JStr "?")) = true.
Proof.
  unfold int_or, truthy_int. destruct o as [z|]; [|reflexivity].
  destruct (z =? 0) eqn:E; cbn; [reflexivity | rewrite E; reflexivity].
Qed.

(** X18.  Nothing in the head of a block is blank: the title, each piece of the
    price text and the bed, bath and car values are never null or empty. *)
Theorem block_head_never_blank :
  forall p b,
    render_block p = Ok b ->
    exists title price_text bd bt cr,
      nth_error b 1 = Some (multi_cell 0 7 (Val title :: Lit " — " :: price_text)) /\
      nth_error b 3 = Some (summary_line bd bt cr) /\
      truthy title = true /\
      price_text <> [] /\ Forall shows price_text /\
      truthy bd = true /\ truthy bt = true /\ truthy cr = true.
Proof.
  intros p b. unfold render_block.
  destruct (opt_line (dist_station_km p) " km to station (~") as [l1|e1]; [|discriminate].
  destruct (opt_line (dist_park_km p) " km to Parramatta Park (~") as [l2|e2];
    [|discriminate].
  cbn [bind]. intros [= <-].
  eexists _, _, _, _, _. split; [reflexivity|]. split; [reflexivity|].
  repeat apply conj; try apply int_or_truthy.
  - unfold title_of, py_or.
    destruct (truthy (address (raw p))) eqn:Ea; [exact Ea|].
    destruct (truthy (url (raw p))) eqn:Eu; [exact Eu | reflexivity].
  - unfold price_text_of.
    destruct (truthy (price_raw (raw p))); [discriminate|].
    destruct (truthy_int (price (raw p))); discriminate.
  - unfold price_text_of.
    destruct (truthy (price_raw (raw p))) eqn:Er.
    + constructor; [exact Er | constructor].
    + unfold truthy_int. destruct (price (raw p)) as [z|].
      * destruct (z =? 0) eqn:Ez; cbn [negb].
        -- constructor; [discriminate | constructor].
        -- constructor; [discriminate|]. constructor; [|constructor].
           cbn. rewrite Ez. reflexivity.
      * constructor; [discriminate | constructor].
Qed.

Lemma block_head_never_blank_witness :
  exists title price_text,
    nth_error
      [set_font "Arial" "B" 11;
       multi_cell 0 7 [Val (JStr "Property"); Lit " — "; Lit "Price unknown"];
       set_font "Arial" EmptyString 10;
       summary_line (JStr "?") (JStr "?") (JStr "?");
       multi_cell 0 6 [Lit "Cons: No dedicated parking listed"];
       ln 3; line_at_y 10 200; ln 4] 1
    = Some (multi_cell 0 7 (Val title :: Lit " — " :: price_text)) /\
    truthy title = true /\ price_text <> [].
Proof.
  destruct (block_head_never_blank (prop_of Demo.platform 500000 blank) _ eq_refl)
    as (title & pt & bd & bt & cr & H1 & _ & H3 & H4 & _).
  exists title, pt. repeat split; assumption.
Defined.

Lemma render_block_no_output p b : render_block p = Ok b -> filter is_output b = [].
Proof.
  unfold render_block, opt_line.
  destruct (dist_station_km p) as [km1|];
    [destruct (km_to_walk_minutes km1); [|discriminate]|];
    (destruct (dist_park_km p) as [km2|];
     [destruct (km_to_walk_minutes km2); [|discriminate]|]);
    cbn [bind]; intros [= <-];
    destruct (truthy (url (raw p))), (pros p), (cons p); reflexivity.
Qed.

(** X19.  The lines of a block: the title and summary lines, and one line each for
    a link, a distance to the station, a distance to the park, pros and cons
    when there are any; then one separator rule. *)
Theorem block_lines :
  forall p b,
    render_block p = Ok b ->
    count_cells b
    = (2 + b2n (truthy (url (raw p))) + b2n (is_some (dist_station_km p))
       + b2n (is_some (dist_park_km p)) + b2n (nonempty (pros p))
       + b2n (nonempty (cons p)))%nat /\
    List.length b = (5 + count_cells b)%nat /\
    count_rules b = 1%nat /\
    filter is_output b = [].
Proof.
  intros p b. unfold render_block, opt_line.
  destruct (dist_station_km p) as [km1|];
    [destruct (km_to_walk_minutes km1); [|discriminate]|];
    (destruct (dist_park_km p) as [km2|];
     [destruct (km_to_walk_minutes km2); [|discriminate]|]);
    cbn [bind]; intros [= <-];
    destruct (truthy (url (raw p))), (pros p), (cons p); repeat split.
Qed.

Lemma block_lines_witness :
  exists b,
    render_block (prop_of Demo.platform 500000 (normalised Demo.listing_with_coordinates))
    = Ok b /\
    count_cells b = 5%nat /\ List.length b = 10%nat.
Proof.
  eexists. split; [vm_compute; reflexivity|].
  match goal with
  | |- count_cells ?b = _ /\ _ =>
      destruct (block_lines
                  (prop_of Demo.platform 500000
                     (normalised Demo.listing_with_coordinates)) b)
        as (H1 & H2 & _)
  end.
  - vm_compute. reflexivity.
  - rewrite H2, H1. split; vm_compute; reflexivity.
Defined.

Lemma filter_output_concat (props : list prop) blocks :
  Forall2 (fun p b => render_block p = Ok b /\ count_rules b = 1%nat) props blocks ->
  filter is_output (List.concat blocks) = [].
Proof.
  induction 1 as [|p b props blocks [Hb _] _ IH]; [reflexivity|].
  cbn [List.concat]. rewrite filter_app, IH.
  rewrite (render_block_no_output p b Hb). reflexivity.
Qed.

(** X21.  The renderer draws exactly when the walking time of every distance
    can be computed: the header, then one block per listing in order, each
    closed by one separator rule, and nothing written yet.  Closing the
    document then fails whenever there is a listing, for the dash that every
    block holds; only the report of an empty list would be written. *)
Theorem report_structure :
  forall P w max_price props,
    (Forall renderable props <->
     exists pdf, render_loop (pdf_header max_price) props = Ok pdf) /\
    (forall pdf,
       render_loop (pdf_header max_price) props = Ok pdf ->
       exists blocks,
         Forall2 (fun p b => render_block p = Ok b /\ count_rules b = 1%nat) props blocks /\
         pdf = (pdf_header max_price ++ List.concat blocks)%list /\
         count_rules pdf = List.length props /\
         filter is_output pdf = [] /\
         (props <> [] ->
          forallb (cmd_latin1 P) pdf = false /\
          make_pdf P w max_price props = Raise UnicodeEncodeError)) /\
    make_pdf P w max_price [] =
    (if write_file w "listings.pdf"
     then Ok (pdf_header max_price ++ [output "listings.pdf"])%list
     else Raise OSError).
Proof.
  intros P w max_price props. repeat apply conj.
  - intros Hr. destruct (render_loop_ok props (pdf_header max_price) Hr) as (blocks & _ & H).
    eauto.
  - intros [pdf H]. eapply render_loop_ok_renderable. exact H.
  - intros pdf H.
    destruct (render_loop_ok props (pdf_header max_price)
                (render_loop_ok_renderable _ _ _ H)) as (blocks & Hf & E).
    assert (Epdf : pdf = (pdf_header max_price ++ List.concat blocks)%list) by congruence.
    exists blocks. split; [exact Hf|]. split; [exact Epdf|].
    repeat apply conj.
    + rewrite Epdf, count_rules_app, (count_rules_concat props blocks Hf). reflexivity.
    + rewrite Epdf, filter_app, (filter_output_concat props blocks Hf). reflexivity.
    + intros Hne.
      pose proof (render_loop_beyond_latin1 P props _ _ Hne H) as Hl.
      split; [exact Hl|]. unfold make_pdf, pdf_output. rewrite H. cbn [bind].
      rewrite Hl. reflexivity.
  - apply make_pdf_nil.
Qed.

Lemma report_structure_witness :
  exists pdf,
    render_loop (pdf_header 500000)
      [prop_of Demo.platform 500000 (normalised Demo.listing_with_coordinates);
       prop_of Demo.platform 500000 blank] = Ok pdf /\
    count_rules pdf = 2%nat /\
    make_pdf Demo.platform (Demo.world JNull None) 500000
      [prop_of Demo.platform 500000 (normalised Demo.listing_with_coordinates);
       prop_of Demo.platform 500000 blank] = Raise UnicodeEncodeError.
Proof.
  destruct (render_loop (pdf_header 500000)
              [prop_of Demo.platform 500000 (normalised Demo.listing_with_coordinates);
               prop_of Demo.platform 500000 blank]) as [pdf|e] eqn:E.
  - exists pdf. split; [reflexivity|].
    destruct (report_structure Demo.platform (Demo.world JNull None) 500000
                [prop_of Demo.platform 500000 (normalised Demo.listing_with_coordinates);
                 prop_of Demo.platform 500000 blank]) as (_ & H & _).
    destruct (H pdf E) as (blocks & _ & _ & Hc & _ & Hm).
    split; [exact Hc|]. apply Hm. discriminate.
  - vm_compute in E. discriminate.
Defined.

(** *** km_to_walk_minutes *)

Lemma round_half_even m p :
  let q := Z.shiftr (Zpos m) (Zpos p) in
  let r := Zpos m - Z.shiftl q (Zpos p) in
  let half := Z.shiftl 1 (Zpos p - 1) in
  let v := if (half <? r) || ((half =? r) && Z.odd q) then q + 1 else q in
  0 <= v /\
  2 * Z.abs (v * 2 ^ Zpos p - Zpos m) <= 2 ^ Zpos p /\
  (2 * Z.abs (v * 2 ^ Zpos p - Zpos m) = 2 ^ Zpos p -> Z.even v = true).
Proof.
  intros q r half v.
  assert (Hq : q = Zpos m / 2 ^ Zpos p) by (apply Z.shiftr_div_pow2; lia).
  assert (Hs : Z.shiftl q (Zpos p) = q * 2 ^ Zpos p) by (apply Z.shiftl_mul_pow2; lia).
  assert (Hh : half = 2 ^ (Zpos p - 1)).
  { unfold half. rewrite Z.shiftl_mul_pow2 by lia. lia. }
  assert (H2 : 2 ^ Zpos p = 2 * half).
  { rewrite Hh, <- Z.pow_succ_r by lia. f_equal. lia. }
  assert (Hpos : 0 < 2 ^ Zpos p) by (apply Z.pow_pos_nonneg; lia).
  pose proof (Z.div_mod (Zpos m) (2 ^ Zpos p) ltac:(lia)) as Hdm.
  pose proof (Z.mod_pos_bound (Zpos m) (2 ^ Zpos p) Hpos) as Hmod.
  assert (Hr : r = Zpos m mod 2 ^ Zpos p).
  { unfold r. rewrite Hs, Hq. lia. }
  assert (Hq0 : 0 <= q) by (rewrite Hq; apply Z.div_pos; lia).
  assert (Hm : Zpos m = q * 2 ^ Zpos p + r) by (rewrite Hr, Hq; lia).
  unfold v.
  destruct (half <? r) eqn:E1; cbn [orb].
  - apply Z.ltb_lt in E1. repeat apply conj; [lia | lia |].
    intros Heq. exfalso. lia.
  - apply Z.ltb_ge in E1.
    destruct (half =? r) eqn:E2; cbn [andb].
    + apply Z.eqb_eq in E2.
      destruct (Z.odd q) eqn:Eo.
      * repeat apply conj; [lia | lia |]. intros _.
        rewrite Z.add_1_r, Z.even_succ. exact Eo.
      * repeat apply conj; [lia | lia |]. intros _.
        rewrite <- Z.negb_odd, Eo. reflexivity.
    + apply Z.eqb_neq in E2. repeat apply conj; [lia | lia |].
      intros Heq. exfalso. lia.
Qed.

(** X22.  The walking time is the integer nearest to the double [km * 12], its
    sign included, the even one of the two when it lies half way; a product
    that is a NaN raises [ValueError] and one that is infinite
    [OverflowError].  The product has the value [m * 2 ^ e], negated when [s]
    is set. *)
Theorem km_to_walk_minutes_nearest :
  forall km,
    match Prim2SF (km * 12) with
    | S754_nan => km_to_walk_minutes km = Raise ValueError
    | S754_infinity _ => km_to_walk_minutes km = Raise OverflowError
    | S754_zero _ => km_to_walk_minutes km = Ok 0
    | S754_finite s m e =>
        exists n,
          km_to_walk_minutes km = Ok n /\
          (if s then n <= 0 else 0 <= n) /\
          match e with
          | Zneg p =>
              2 * Z.abs (Z.abs n * 2 ^ Zpos p - Zpos m) <= 2 ^ Zpos p /\
              (2 * Z.abs (Z.abs n * 2 ^ Zpos p - Zpos m) = 2 ^ Zpos p ->
               Z.even n = true)
          | _ => Z.abs n = Zpos m * 2 ^ e
          end
    end.
Proof.
  intros km. unfold km_to_walk_minutes, float_round.
  destruct (Prim2SF (km * 12)) as [s|s| |s m e]; try reflexivity.
  destruct e as [|pe|p].
  - eexists. split; [reflexivity|]. rewrite Z.shiftl_mul_pow2 by lia.
    destruct s; split; lia.
  - eexists. split; [reflexivity|]. rewrite Z.shiftl_mul_pow2 by lia.
    assert (0 < 2 ^ Zpos pe) by (apply Z.pow_pos_nonneg; lia).
    destruct s; split; nia.
  - pose proof (round_half_even m p) as H. cbv zeta in H.
    eexists. split; [reflexivity|].
    match type of H with
    | 0 <= ?x /\ _ => set (v := x) in *
    end.
    destruct H as (H0 & H1 & H2).
    destruct s.
    + split; [lia|]. rewrite Z.abs_opp, Z.even_opp, (Z.abs_eq v) by lia.
      split; assumption.
    + split; [lia|]. rewrite (Z.abs_eq v) by lia. split; assumption.
Qed.

(** *** The run *)

(** X23.  An empty list under "properties" ends the run with the diagnostic,
    whatever the other keys of the document hold. *)
Theorem empty_properties_end_the_run :
  forall P c w r d,
    ~ credentials_absent c ->
    http_get w (the_request c) = Some r ->
    status_code r = 200 ->
    body r = Some (JDict d) ->
    dict_get d "properties" = Some (JList []) ->
    run_search_and_build_pdf P c w = Raise (SystemExit msg_container).
Proof.
  intros P c w r d Hc Hr Hs Hb Hp.
  apply truthy_env_present in Hc. destruct Hc as [Hk Hh].
  unfold run_search_and_build_pdf. rewrite Hk, Hh, Hr, Hs, Hb. cbn [negb orb Z.eqb].
  unfold find_listings_container, candidates. cbn [find_candidate]. rewrite Hp.
  reflexivity.
Qed.

Lemma empty_properties_end_the_run_witness :
  run_search_and_build_pdf Demo.platform Demo.config
    (Demo.world
       (JDict [("data", JList [Demo.listing_with_coordinates]); ("properties", JList [])])
       None)
  = Raise (SystemExit msg_container).
Proof.
  apply (empty_properties_end_the_run Demo.platform Demo.config _
           {| status_code := 200;
              body := Some (JDict [("data", JList [Demo.listing_with_coordinates]);
                                   ("properties", JList [])]) |}
           [("data", JList [Demo.listing_with_coordinates]); ("properties", JList [])]);
    try reflexivity.
  intros [H | H]; vm_compute in H; discriminate.
Defined.

(** X24.  No run returns: the script ends with one of its diagnostics or with
    an uncaught exception, and the report is never written.  With a 200
    answer, a container that is not empty and walking times that can all be
    computed, the exception is the [UnicodeEncodeError] that [output] raises
    for the dash of line 217. *)
Theorem no_run_writes_the_report :
  forall P c w,
    (exists e, run_search_and_build_pdf P c w = Raise e) /\
    (forall r j listings props io,
       ~ credentials_absent c ->
       http_get w (the_request c) = Some r ->
       status_code r = 200 ->
       body r = Some j ->
       find_listings_container j = Some listings ->
       listings <> [] ->
       enrich_loop P w (MAX_PRICE c) listings (0%nat, 0%nat) [] = Ok (props, io) ->
       Forall renderable props ->
       run_search_and_build_pdf P c w = Raise UnicodeEncodeError).
Proof.
  intros P c w.
  assert (Hprops : forall listings props io,
             listings <> [] ->
             enrich_loop P w (MAX_PRICE c) listings (0%nat, 0%nat) [] = Ok (props, io) ->
             props <> []).
  { intros listings props io Hne Hl.
    destruct (enrich_loop_spec P w (MAX_PRICE c) listings (0%nat, 0%nat) [])
      as (props' & io' & Hl' & Hf).
    rewrite Hl in Hl'. injection Hl' as -> _. cbn [app].
    destruct Hf; [congruence | discriminate]. }
  split.
  - unfold run_search_and_build_pdf.
    destruct (negb (truthy_env (RAPIDAPI_KEY c)) || negb (truthy_env (RAPIDAPI_HOST c)));
      [eauto|].
    destruct (http_get w (the_request c)) as [r|]; [|eauto].
    destruct (negb (status_code r =? 200)); [eauto|].
    destruct (body r) as [j|]; [|eauto].
    destruct (find_listings_container j) as [[|L rest]|]; cbn [no_listings]; [eauto| |eauto].
    destruct (enrich_loop P w (MAX_PRICE c) (L :: rest) (0%nat, 0%nat) [])
      as [[props io]|e] eqn:El; cbn [bind fst]; [|eauto].
    destruct (make_pdf_raises P w (MAX_PRICE c) props) as (e & He & _); [|eauto].
    eapply Hprops; [|exact El]. discriminate.
  - intros r j listings props io Hc Hr Hs Hb Hf Hne Hl Hren.
    apply truthy_env_present in Hc. destruct Hc as [Hk Hh].
    unfold run_search_and_build_pdf. rewrite Hk, Hh, Hr, Hs, Hb, Hf. cbn [negb orb Z.eqb].
    destruct listings as [|L rest]; [congruence|]. cbn [no_listings].
    rewrite Hl. cbn [bind fst].
    destruct (make_pdf_raises P w (MAX_PRICE c) props) as (e & He & _ & Hu).
    + eapply Hprops; [|exact Hl]. discriminate.
    + rewrite He, (Hu Hren). reflexivity.
Qed.

Lemma no_run_writes_the_report_witness :
  run_search_and_build_pdf Demo.platform Demo.config
    (Demo.world
       (Demo.document [Demo.listing_with_coordinates; JDict [("beds", JStr "abc")]])
       None) = Raise UnicodeEncodeError.
Proof.
  destruct (enrich_loop Demo.platform
              (Demo.world
                 (Demo.document [Demo.listing_with_coordinates; JDict [("beds", JStr "abc")]])
                 None) 500000
              [Demo.listing_with_coordinates; JDict [("beds", JStr "abc")]]
              (0%nat, 0%nat) []) as [[props io]|e] eqn:E.
  - destruct (no_run_writes_the_report Demo.platform Demo.config
                (Demo.world
                   (Demo.document
                      [Demo.listing_with_coordinates; JDict [("beds", JStr "abc")]])
                   None)) as [_ H].
    apply (H {| status_code := 200;
                body := Some (Demo.document
                                [Demo.listing_with_coordinates;
                                 JDict [("beds", JStr "abc")]]) |}
             (Demo.document
                [Demo.listing_with_coordinates; JDict [("beds", JStr "abc")]])
             [Demo.listing_with_coordinates; JDict [("beds", JStr "abc")]]
             props io); try reflexivity.
    + intros [A | A]; vm_compute in A; discriminate.
    + discriminate.
    + exact E.
    + vm_compute in E. injection E as <- _.
      repeat constructor; eexists; vm_compute; reflexivity.
  - vm_compute in E. discriminate.
Defined.

(** *** Container locator *)

Lemma dict_get_in d k v : dict_get d k = Some v -> In (k, v) d.
Proof.
  induction d as [|[k' v'] d IH]; cbn; [discriminate|].
  destruct (String.eqb k' k) eqn:E.
  - apply String.eqb_eq in E. intros [= ->]. left. congruence.
  - intros H. right. exact (IH H).
Qed.

(** X5.  The locator makes nothing up: the list it returns for a record is the
    value of one of the record's entries, and a document that is neither a
    record nor a list has no container. *)
Theorem located_list_is_an_entry :
  forall j l,
    find_listings_container j = Some l ->
    j = JList l \/ exists d k, j = JDict d /\ In (k, JList l) d.
Proof.
  intros j l. destruct j; try discriminate.
  - intros [= ->]. left. reflexivity.
  - unfold find_listings_container. intros H. right. exists d.
    destruct (find_candidate d candidates) as [l'|] eqn:Ec.
    + injection H as ->.
      destruct (find_candidate_some _ _ _ Ec) as (pre & k & post & _ & _ & Hk).
      exists k. split; [reflexivity | apply dict_get_in; exact Hk].
    + destruct (find_list_of_dicts_some _ _ H) as (before & k & after & -> & _).
      exists k. split; [reflexivity | apply in_elt].
Qed.

Lemma located_list_is_an_entry_witness :
  exists k, In (k, JList [JDict []]) [("total", JInt 1); ("homes", JList [JDict []])].
Proof.
  destruct (located_list_is_an_entry
              (JDict [("total", JInt 1); ("homes", JList [JDict []])]) [JDict []] eq_refl)
    as [H | (d & k & Hd & Hin)]; [discriminate|].
  injection Hd as <-. exists k. exact Hin.
Defined.

(** *** Price text *)

Lemma falsy_float_truncates_to_zero f :
  PrimFloat.eqb f PrimFloat.zero = true -> float_trunc f = Ok 0.
Proof.
  rewrite eqb_spec. change (Prim2SF PrimFloat.zero) with (S754_zero false).
  unfold float_trunc, SFeqb, SFcompare. intros H.
  destruct (Prim2SF f) as [s|s| |s m e]; try reflexivity; exfalso.
  - destruct s; discriminate.
  - discriminate.
  - destruct s; discriminate.
Qed.

Lemma falsy_raw_price_is_no_price v :
  truthy v = false -> truthy_int (normal_price v) = false.
Proof.
  destruct v as [|b|z|f|s|l|d]; cbn; try reflexivity.
  - intros ->. reflexivity.
  - intros H. exact H.
  - intros H. apply negb_false_iff in H.
    rewrite (falsy_float_truncates_to_zero f H). reflexivity.
  - intros H. apply negb_false_iff in H. apply String.eqb_eq in H. subst s. reflexivity.
Qed.

(** X17.  The price shown for an enriched listing is the provider's raw price
    whenever that is a true value, and "Price unknown" otherwise: a raw price
    that is empty or zero never leaves a number to print, so the report never
    prints a price of its own as "$" and a number. *)
Theorem price_shown_is_raw_or_unknown :
  forall P w max_price io L p io',
    enrich P w max_price io L = Ok (p, io') ->
    (truthy (price_raw (raw p)) = true /\
     price_text_of (raw p) = [Val (price_raw (raw p))]) \/
    (truthy (price_raw (raw p)) = false /\
     price_text_of (raw p) = [Lit "Price unknown"]).
Proof.
  intros P w max_price io L p io' H.
  destruct (enrich_spec P w max_price io L) as (p0 & io0 & H0 & Hs & _).
  rewrite H in H0. injection H0 as <- <-.
  destruct Hs as (Hr & Hp & _).
  unfold price_text_of.
  destruct (truthy (price_raw (raw p))) eqn:E; [left; auto | right].
  split; [reflexivity|].
  rewrite Hp. unfold normalised. cbn [price].
  rewrite Hr in E. unfold normalised in E. cbn [price_raw] in E.
  rewrite (falsy_raw_price_is_no_price _ E). reflexivity.
Qed.

Lemma price_shown_is_raw_or_unknown_witness :
  exists p io',
    enrich Demo.platform (Demo.world JNull None) 500000 (0%nat, 0%nat)
      (JDict [("price", JFloat 0)]) = Ok (p, io') /\
    price (raw p) = Some 0 /\
    price_text_of (raw p) = [Lit "Price unknown"].
Proof.
  destruct (enrich Demo.platform (Demo.world JNull None) 500000 (0%nat, 0%nat)
              (JDict [("price", JFloat 0)])) as [[p io']|e] eqn:E.
  - exists p, io'. split; [reflexivity|].
    destruct (price_shown_is_raw_or_unknown _ _ _ _ _ _ _ E) as [[Ht _] | [_ Hu]].
    + vm_compute in E. injection E as <- _. vm_compute in Ht. discriminate.
    + split; [|exact Hu]. vm_compute in E. injection E as <- _. reflexivity.
  - vm_compute in E. discriminate.
Defined.

Lemma km_to_walk_minutes_nearest_witness :
  exists n, km_to_walk_minutes 0.125 = Ok n /\ Z.even n = true.
Proof.
  pose proof (km_to_walk_minutes_nearest 0.125) as H.
  change (Prim2SF (0.125 * 12)) with (S754_finite false 6755399441055744 (-52)) in H.
  destruct H as (n & Hn & _ & _ & He).
  exists n. split; [exact Hn|]. apply He.
  vm_compute in Hn. injection Hn as <-. reflexivity.
Defined.
